(** * Ground-station backend: telemetry validator, packet-gap tracker,
      command formatter, display model and CSV replayer.

    Shallow embedding of
      - [schema.py], [config.py]
      - [receiver_udp.py]   ([parse_and_validate], the body of [main]'s loop)
      - [cmd_sender_udp.py] ([format_cmd])
      - [gs_gui2.py]        ([TelemetryModel.append_csv_line], [CsvReplayer._loop])

    Text is a [string] of ASCII characters: the receiver builds every line
    with [data.decode("ascii", errors="ignore")], so no other code point
    reaches the validator.  The Python built-ins below are given on that
    alphabet; codes above 127 are treated as neither space, digit nor letter. *)

From Stdlib Require Import String Ascii List ZArith NArith Bool Lia.
Import ListNotations.

Open Scope string_scope.
Open Scope Z_scope.

(** ** Outcome of a call that may raise *)

Inductive result (E A : Type) : Type :=
| Ok (a : A)
| Raise (e : E).

Arguments Ok {E A} a.
Arguments Raise {E A} e.

Definition bind {E A B : Type} (m : result E A) (k : A -> result E B) : result E B :=
  match m with
  | Ok a => k a
  | Raise e => Raise e
  end.

(** [ensure b e] is the statement [if not b: raise e]. *)
Definition ensure {E : Type} (b : bool) (e : E) : result E unit :=
  if b then Ok tt else Raise e.

Notation "x <- m ;; k" := (bind m (fun x => k))
  (at level 61, m at next level, right associativity).
Notation "m ;;; k" := (bind m (fun _ => k))
  (at level 61, right associativity).

(** ** The Python built-ins the backend calls *)

Module Py.

Definition code (c : ascii) : N := N_of_ascii c.

(** [str.isspace] on one ASCII character: TAB, LF, VT, FF, CR, the four
    separators FS, GS, RS, US, and the blank. *)
Definition isspace (c : ascii) : bool :=
  let n := code c in
  ((9 <=? n) && (n <=? 13) || (28 <=? n) && (n <=? 32))%N.

Fixpoint lstrip (s : string) : string :=
  match s with
  | String c s' => if isspace c then lstrip s' else s
  | EmptyString => EmptyString
  end.

Fixpoint rstrip (s : string) : string :=
  match s with
  | String c s' =>
      match rstrip s' with
      | EmptyString => if isspace c then EmptyString else String c EmptyString
      | r => String c r
      end
  | EmptyString => EmptyString
  end.

(** [s.strip()] *)
Definition strip (s : string) : string := rstrip (lstrip s).

(** [s.split(sep)] for a one-character separator: never the empty list. *)
Fixpoint split (sep : ascii) (s : string) : list string :=
  match s with
  | EmptyString => [EmptyString]
  | String c s' =>
      if Ascii.eqb c sep then EmptyString :: split sep s'
      else match split sep s' with
           | h :: t => String c h :: t
           | [] => [String c EmptyString]
           end
  end.

(** [sep.join(l)] *)
Fixpoint join (sep : string) (l : list string) : string :=
  match l with
  | [] => EmptyString
  | [x] => x
  | x :: rest => x ++ sep ++ join sep rest
  end.

Definition upper_char (c : ascii) : ascii :=
  let n := code c in
  if ((97 <=? n) && (n <=? 122))%N then ascii_of_N (n - 32) else c.

(** [s.upper()] *)
Fixpoint upper (s : string) : string :=
  match s with
  | String c s' => String (upper_char c) (upper s')
  | EmptyString => EmptyString
  end.

Definition is_digit (c : ascii) : bool :=
  let n := code c in ((48 <=? n) && (n <=? 57))%N.

Fixpoint all_digits (s : string) : bool :=
  match s with
  | String c s' => is_digit c && all_digits s'
  | EmptyString => true
  end.

(** [s.isdigit()] on ASCII text: false on the empty string.  Outside ASCII
    [str.isdigit] is also true of digit characters such as the superscript
    two, which [int] refuses; they are not in the alphabet of this
    development, and a statement that leans on it says so. *)
Definition isdigit (s : string) : bool :=
  match s with
  | EmptyString => false
  | _ => all_digits s
  end.

(** [c in s] for a single character [c]. *)
Fixpoint contains (c : ascii) (s : string) : bool :=
  match s with
  | String d s' => Ascii.eqb d c || contains c s'
  | EmptyString => false
  end.

(** [x in {...}] for a set of string literals. *)
Definition mem (x : string) (set : list string) : bool :=
  existsb (String.eqb x) set.

(** *** [int(s)] on text

    CPython skips leading blanks (TAB..CR and the space, not FS..US), takes
    an optional sign, then decimal digits in which single underscores may
    separate digits, then trailing blanks up to the end of the text.  A text
    of more than [int_max_str_digits] digits is refused. *)

Definition int_space (c : ascii) : bool :=
  let n := code c in ((9 <=? n) && (n <=? 13) || (n =? 32))%N.

Fixpoint skip_int_space (s : string) : string :=
  match s with
  | String c s' => if int_space c then skip_int_space s' else s
  | EmptyString => EmptyString
  end.

Definition digit_value (c : ascii) : option Z :=
  if is_digit c then Some (Z.of_N (code c) - 48) else None.

Definition int_max_str_digits : nat := 4300.

(** The digit scan: [prev_us] tells that the previous character was an
    underscore, [acc] is the value read so far and [nd] the number of digits.
    It stops at the first character that is neither digit nor underscore. *)
Fixpoint scan_digits (s : string) (prev_us : bool) (acc : Z) (nd : nat)
  : option (Z * nat * string) :=
  match s with
  | String c s' =>
      match digit_value c with
      | Some d => scan_digits s' false (10 * acc + d) (S nd)
      | None =>
          if Ascii.eqb c "_" then
            if prev_us then None else scan_digits s' true acc nd
          else if prev_us then None else Some (acc, nd, s)
      end
  | EmptyString => if prev_us then None else Some (acc, nd, EmptyString)
  end.

Definition starts_with_underscore (s : string) : bool :=
  match s with
  | String c _ => Ascii.eqb c "_"
  | EmptyString => false
  end.

Definition int (s : string) : option Z :=
  let s1 := skip_int_space s in
  let '(neg, body) :=
    match s1 with
    | String c r =>
        if Ascii.eqb c "+" then (false, r)
        else if Ascii.eqb c "-" then (true, r)
        else (false, s1)
    | EmptyString => (false, s1)
    end in
  if starts_with_underscore body then None
  else
    match scan_digits body false 0 0 with
    | None => None
    | Some (v, nd, rest) =>
        if (int_max_str_digits <? nd)%nat then None
        else
          match nd with
          | O => None
          | S _ =>
              match skip_int_space rest with
              | EmptyString => Some (if neg then - v else v)
              | _ => None
              end
          end
    end.

(** [l[k:]] for any integer [k]: a negative bound counts from the end, and
    bounds outside the list are clamped. *)
Definition slice_from {A : Type} (k : Z) (l : list A) : list A :=
  let n := Z.of_nat (length l) in
  let k' := if k <? 0 then Z.max 0 (k + n) else Z.min k n in
  skipn (Z.to_nat k') l.

(** Whether some character of [s] is a blank for [str.isspace]. *)
Fixpoint has_space (s : string) : bool :=
  match s with
  | String c s' => isspace c || has_space s'
  | EmptyString => false
  end.

(** [s.split()], without argument: the maximal runs of non-blank
    characters, in order; never an empty token. *)
Fixpoint split_ws (s : string) : list string :=
  match s with
  | EmptyString => []
  | String c s' =>
      if isspace c then split_ws s'
      else
        match s' with
        | EmptyString => [String c EmptyString]
        | String d _ =>
            if isspace d then String c EmptyString :: split_ws s'
            else match split_ws s' with
                 | h :: t => String c h :: t
                 | [] => [String c EmptyString]
                 end
        end
  end.

(** The decimal digits of a non-negative [n], written in front of [acc];
    [fuel] bounds the number of digits. *)
Fixpoint digits_of (fuel : nat) (n : Z) (acc : string) : string :=
  match fuel with
  | O => acc
  | S f =>
      let acc' := String (ascii_of_N (48 + Z.to_N (n mod 10))) acc in
      if n <? 10 then acc' else digits_of f (n / 10) acc'
  end.

Definition digits (n : Z) : string :=
  digits_of (S (Z.to_nat (Z.log2 n))) n EmptyString.

(** [str(n)] for an integer: CPython refuses to print more than
    [int_max_str_digits] digits, the sign not counted. *)
Definition str (n : Z) : option string :=
  let ds := digits (Z.abs n) in
  if (int_max_str_digits <? String.length ds)%nat then None
  else Some (if n <? 0 then String "-" ds else ds).

(** [data.decode("ascii", errors="ignore")]: the bytes below 128, in order. *)
Definition decode_ascii_ignore (data : list Byte.byte) : string :=
  string_of_list_ascii
    (filter (fun c => (code c <? 128)%N) (map ascii_of_byte data)).

Fixpoint is_ascii (s : string) : bool :=
  match s with
  | String c s' => (code c <? 128)%N && is_ascii s'
  | EmptyString => true
  end.

End Py.

(** ** [config.py] *)

Module Config.

Definition TEAM_ID : string := "1000".

End Config.

(** ** [schema.py] *)

Module Schema.

Definition REQUIRED_HEADERS : list string :=
  [ "TEAM_ID"; "MISSION_TIME"; "PACKET_COUNT"; "MODE"; "STATE";
    "ALTITUDE"; "TEMPERATURE"; "PRESSURE"; "VOLTAGE";
    "GYRO_R"; "GYRO_P"; "GYRO_Y";
    "ACCEL_R"; "ACCEL_P"; "ACCEL_Y";
    "MAG_R"; "MAG_P"; "MAG_Y";
    "AUTO_GYRO_ROTATION_RATE";
    "GPS_TIME"; "GPS_ALTITUDE"; "GPS_LATITUDE"; "GPS_LONGITUDE"; "GPS_SATS";
    "CMD_ECHO" ].

Definition ALLOWED_MODES : list string := [ "F"; "S" ].

Definition ALLOWED_STATES : list string :=
  [ "LAUNCH_PAD"; "ASCENT"; "APOGEE"; "DESCENT";
    "PROBE_RELEASE"; "PAYLOAD_RELEASE"; "LANDED" ].

(** [{name: i for i, name in enumerate(headers)}]: a later occurrence of a
    name overwrites an earlier one. *)
Fixpoint index_from (i : nat) (headers : list string) (name : string) : option nat :=
  match headers with
  | [] => None
  | h :: rest =>
      match index_from (S i) rest name with
      | Some j => Some j
      | None => if String.eqb h name then Some i else None
      end
  end.

Definition INDEX (name : string) : option nat :=
  index_from 0 REQUIRED_HEADERS name.

Definition has_required_field_count (fields : list string) : bool :=
  (length REQUIRED_HEADERS <=? length fields)%nat.

Definition is_valid_mode (mode_text : string) : bool :=
  Py.mem mode_text ALLOWED_MODES.

Definition is_valid_state (state_text : string) : bool :=
  Py.mem state_text ALLOWED_STATES.

End Schema.

(** ** The packet-count gap rule

    The same three lines appear in [receiver_udp.main] (lines 106-109, on
    [last_tx_count] and [lost]) and in [TelemetryModel.append_csv_line]
    (lines 77-79, on [last_pkt] and [dropped]):
<<
      if last is not None and seq > last + 1:
          lost += seq - last - 1
      last = seq
>>
    The state is the pair of the last count seen and the running total. *)

Definition gap_state : Type := (option Z * Z)%type.

Definition gap_delta (last : option Z) (seq : Z) : Z :=
  match last with
  | Some l => if l + 1 <? seq then seq - l - 1 else 0
  | None => 0
  end.

Definition gap_update (st : gap_state) (seq : Z) : gap_state :=
  let '(last, total) := st in
  (Some seq,
   match last with
   | Some l => if l + 1 <? seq then total + (seq - l - 1) else total
   | None => total
   end).

(** Feeding a whole list of counts, oldest first. *)
Definition gap_run (st : gap_state) (seqs : list Z) : gap_state :=
  fold_left gap_update seqs st.

(** ** [receiver_udp.py] *)

Module Receiver.

Import Schema Config.

(** One constructor per [raise] of [parse_and_validate], carrying what its
    message interpolates; [LookupFailed] stands for the [KeyError] or
    [IndexError] of a subscript. *)
Inductive parse_error : Type :=
| TooFewFields (have want : nat)
| WrongTeamId (got expected : string)
| BadMode (got : string)
| BadState (got : string)
| PacketCountNotInt (got : string)
| LookupFailed (name : string).

(** [fields[INDEX[name]]] *)
Definition item (fields : list string) (name : string) : result parse_error string :=
  match INDEX name with
  | Some i =>
      match nth_error fields i with
      | Some v => Ok v
      | None => Raise (LookupFailed name)
      end
  | None => Raise (LookupFailed name)
  end.

Definition parse_and_validate (line : string)
  : result parse_error (list string * Z) :=
  let fields := Py.split "," (Py.strip line) in
  ensure (has_required_field_count fields)
         (TooFewFields (length fields) (length REQUIRED_HEADERS)) ;;;
  raw_team <- item fields "TEAM_ID" ;;
  let team_id := Py.strip raw_team in
  ensure (String.eqb team_id TEAM_ID) (WrongTeamId team_id TEAM_ID) ;;;
  raw_mode <- item fields "MODE" ;;
  let mode := Py.strip raw_mode in
  ensure (is_valid_mode mode) (BadMode mode) ;;;
  raw_state <- item fields "STATE" ;;
  let state := Py.strip raw_state in
  ensure (is_valid_state state) (BadState state) ;;;
  raw_count <- item fields "PACKET_COUNT" ;;
  tx_count <- match Py.int raw_count with
              | Some n => Ok n
              | None => Raise (PacketCountNotInt raw_count)
              end ;;
  Ok (firstn (length REQUIRED_HEADERS) fields, tx_count).

(** *** One datagram through the loop of [main]

    [Clock] is the type of [time.time()] readings; they are stored, never
    computed with, on this path. *)
Section Loop.

Context {Clock : Type}.

Record state : Type := mkState {
  received : Z;
  lost : Z;
  last_tx_count : option Z;
  last_rx_time : Clock;
  csv_rows : list (list string)   (* rows given to [writer.writerow], oldest first *)
}.

Inductive printed : Type :=
| ParseErrorLine (e : parse_error) (shown : string)
| Heartbeat (rx lost : Z) (state alt batt : result parse_error string).

(** After [open_csv]: the header row is written, the counters are zero. *)
Definition initial (now : Clock) : state :=
  mkState 0 0 None now [REQUIRED_HEADERS].

(** The loop body from the decoded [line] on (lines 94-122); [now] is the
    clock reading taken when the row has been written. *)
Definition main_step (st : state) (now : Clock) (line : string)
  : state * list printed :=
  if String.eqb (Py.strip line) "" then (st, [])
  else
    match parse_and_validate line with
    | Raise e => (st, [ParseErrorLine e (substring 0 80 line)])
    | Ok (row, tx_count) =>
        let '(last', lost') := gap_update (last_tx_count st, lost st) tx_count in
        let received' := received st + 1 in
        let st' := mkState received' lost' last' now (csv_rows st ++ [row])%list in
        (st',
         if received' mod 5 =? 0
         then [Heartbeat received' lost'
                 (item row "STATE") (item row "ALTITUDE") (item row "VOLTAGE")]
         else [])
    end.

(** The loop over the datagrams of a run, already decoded, each with the
    clock reading of its step. *)
Definition main_run (st : state) (inputs : list (Clock * string)) : state :=
  fold_left (fun s '(now, line) => fst (main_step s now line)) inputs st.

(** Lines 94-122 on the bytes of one datagram. *)
Definition on_datagram (st : state) (now : Clock) (data : list Byte.byte)
  : state * list printed :=
  main_step st now (Py.decode_ascii_ignore data).

End Loop.

Arguments state : clear implicits.
Arguments printed : clear implicits.

End Receiver.

(** ** [cmd_sender_udp.py] *)

Module CmdSender.

Import Config.

(** [f"CMD,{TEAM_ID},{tail}"] *)
Definition cmd (tail : string) : string := "CMD," ++ TEAM_ID ++ "," ++ tail.

(** [format_cmd(parts)]: the wire text, or the message of the [ValueError]. *)
Definition format_cmd (parts : list string) : result string string :=
  match parts with
  | [] => Raise "Empty input"
  | p0 :: args =>
      let name := Py.upper p0 in
      if String.eqb name "CAL" then
        Ok (cmd "CAL")
      else if String.eqb name "CX" then
        match args with
        | [a] =>
            if Py.mem (Py.upper a) ["ON"; "OFF"]
            then Ok (cmd ("CX," ++ Py.upper a))
            else Raise "Usage: CX ON|OFF"
        | _ => Raise "Usage: CX ON|OFF"
        end
      else if String.eqb name "ST" then
        match args with
        | [a] =>
            let arg := Py.upper a in
            if String.eqb arg "GPS" then Ok (cmd "ST,GPS")
            else if (String.length arg =? 8)%nat
                    && match String.get 2 arg with
                       | Some c => Ascii.eqb c ":"
                       | None => false
                       end
                    && match String.get 5 arg with
                       | Some c => Ascii.eqb c ":"
                       | None => false
                       end
            then Ok (cmd ("ST," ++ arg))
            else Raise "ST must be hh:mm:ss or GPS"
        | _ => Raise "Usage: ST hh:mm:ss | ST GPS"
        end
      else if String.eqb name "SIM" then
        match args with
        | [a] =>
            if Py.mem (Py.upper a) ["ENABLE"; "ACTIVATE"; "DISABLE"]
            then Ok (cmd ("SIM," ++ Py.upper a))
            else Raise "Usage: SIM ENABLE|ACTIVATE|DISABLE"
        | _ => Raise "Usage: SIM ENABLE|ACTIVATE|DISABLE"
        end
      else if String.eqb name "SIMP" then
        match args with
        | [a] =>
            if Py.isdigit a
            then Ok (cmd ("SIMP," ++ a))
            else Raise "Usage: SIMP <pressure_pa>"
        | _ => Raise "Usage: SIMP <pressure_pa>"
        end
      else if String.eqb name "MEC" then
        match args with
        | [d; a] =>
            if Py.mem (Py.upper a) ["ON"; "OFF"] then
              let device := Py.upper d in
              if Py.contains "," device
              then Raise "DEVICE must not contain commas"
              else Ok (cmd ("MEC," ++ device ++ "," ++ Py.upper a))
            else Raise "Usage: MEC <DEVICE> <ON|OFF>"
        | _ => Raise "Usage: MEC <DEVICE> <ON|OFF>"
        end
      else Raise ("Unknown command " ++ name)
  end.

(** One line of standard input through the loop of [main] (lines 74-83):
    what is printed, and the wire text handed to [maybe_send_udp]. *)
Inductive said : Type :=
| SaidError (msg : string)
| SaidCommand (cmd_line : string).

Definition main_step (raw : string) : list said * option string :=
  let parts := Py.split_ws (Py.strip raw) in
  match parts with
  | [] => ([], None)
  | _ =>
      match format_cmd parts with
      | Raise e => ([SaidError e], None)
      | Ok cmd_line => ([SaidCommand cmd_line], Some cmd_line)
      end
  end.

End CmdSender.

(** ** [gs_gui2.py] *)

Module Gui.

Import Schema.

Section Model.

Context {Clock : Type}.

(** A row is [dict(zip(REQUIRED_HEADERS, parts))], kept in insertion order,
    with the clock reading stored under ["_t_wall"]. *)
Record row : Type := mkRow {
  cells : list (string * string);
  t_wall : Clock
}.

(** [row.get(key)] *)
Fixpoint get (key : string) (kvs : list (string * string)) : option string :=
  match kvs with
  | [] => None
  | (k, v) :: rest => if String.eqb k key then Some v else get key rest
  end.

Record TelemetryModel : Type := mkModel {
  rows : list row;
  maxlen : Z;
  last_pkt : option Z;
  dropped : Z
}.

(** [TelemetryModel(maxlen)] *)
Definition init (maxlen : Z) : TelemetryModel := mkModel [] maxlen None 0.

(** What a call of [append_csv_line] ends with: one of its two signals, or
    the [ValueError] of [int(pkt)]. *)
Inductive outcome : Type :=
| ErrorSignal (have want : nat)        (* "Bad columns: have != want" *)
| UpdatedSignal (r : row)
| ValueErrorRaised (text : string).

(** Lines 81-83: [rows.append(row)], then the trim to [maxlen]. *)
Definition push (cap : Z) (rs : list row) (r : row) : list row :=
  let rs1 := (rs ++ [r])%list in
  if cap <? Z.of_nat (length rs1) then Py.slice_from (- cap) rs1 else rs1.

Definition append_csv_line (m : TelemetryModel) (now : Clock) (line : string)
  : TelemetryModel * outcome :=
  let parts := Py.split "," (Py.strip line) in
  if negb (length parts =? length REQUIRED_HEADERS)%nat then
    (m, ErrorSignal (length parts) (length REQUIRED_HEADERS))
  else
    let kvs := combine REQUIRED_HEADERS parts in
    let tracked :=
      match get "PACKET_COUNT" kvs with
      | Some pkt =>
          if negb (String.eqb pkt "") && Py.isdigit pkt then
            match Py.int pkt with
            | Some n => Ok (gap_update (last_pkt m, dropped m) n)
            | None => Raise pkt
            end
          else Ok (last_pkt m, dropped m)
      | None => Ok (last_pkt m, dropped m)
      end in
    match tracked with
    | Raise pkt => (m, ValueErrorRaised pkt)
    | Ok (last', dropped') =>
        let r := mkRow kvs now in
        (mkModel (push (maxlen m) (rows m) r) (maxlen m) last' dropped',
         UpdatedSignal r)
    end.

(** Feeding lines one after the other, each with its clock reading. *)
Definition feed (m : TelemetryModel) (inputs : list (Clock * string)) : TelemetryModel :=
  fold_left (fun m' '(now, line) => fst (append_csv_line m' now line)) inputs m.

(** [save_snapshot]: the rows handed to the CSV writer, header first. *)
Definition snapshot_row (r : row) : list string :=
  map (fun k => match get k (cells r) with Some v => v | None => EmptyString end)
      REQUIRED_HEADERS.

Definition save_snapshot (m : TelemetryModel) : list (list string) :=
  REQUIRED_HEADERS :: map snapshot_row (rows m).

(** The part of [MainWindow] that [on_udp_line] touches.  [log_writer] holds
    the rows written since the log was opened, header included. *)
Record MainWindow : Type := mkWindow {
  model : TelemetryModel;
  recv_times : list Clock;
  packet_count : Z;
  last_sender : string;
  logging : bool;
  log_writer : option (list (list string))
}.

(** [on_udp_line(line, addr)]; [t_recv] and [t_row] are the two clock
    readings it takes.  When [append_csv_line] raises, the slot is left at
    that point. *)
Definition on_udp_line (w : MainWindow) (t_recv t_row : Clock)
           (line addr : string) : MainWindow * outcome :=
  let times1 := (recv_times w ++ [t_recv])%list in
  let times2 :=
    if 2000 <? Z.of_nat (length times1) then Py.slice_from (- 2000) times1
    else times1 in
  let '(m', out) := append_csv_line (model w) t_row line in
  match out with
  | ValueErrorRaised _ =>
      (mkWindow m' times2 (packet_count w + 1) addr (logging w) (log_writer w), out)
  | _ =>
      let log' :=
        match log_writer w with
        | Some written =>
            if logging w then
              let parts := Py.split "," (Py.strip line) in
              if (length parts =? length REQUIRED_HEADERS)%nat
              then Some (written ++ [parts])%list
              else Some written
            else Some written
        | None => None
        end in
      (mkWindow m' times2 (packet_count w + 1) addr (logging w) log', out)
  end.

(** One datagram through [UdpReceiver._loop] (lines 125-128): the line given
    to the [rx] signal, if any. *)
Definition rx_line (data : list Byte.byte) : option string :=
  let line := Py.strip (Py.decode_ascii_ignore data) in
  if String.eqb line "" then None else Some line.

End Model.

Arguments row : clear implicits.
Arguments TelemetryModel : clear implicits.
Arguments outcome : clear implicits.
Arguments MainWindow : clear implicits.

(** *** [CsvReplayer._loop]

    The file is given as [csv.reader] hands it over, a list of rows of
    cells, or [None] when it cannot be opened; [stop i] is what
    [self._stop.is_set()] answers at the [i]-th data row.

    When the file cannot be opened the status is ["Replay error: "] followed
    by the text of the exception; the model keeps the fixed part of the
    message.  An exception raised while the rows are read is outside the
    model, which takes the rows as read. *)

Inductive replay_signal : Type :=
| Status (msg : string)
| Line (text : string).

Fixpoint replay_rows (stop : nat -> bool) (i : nat) (data : list (list string))
  : list replay_signal :=
  match data with
  | [] => []
  | r :: rest =>
      if stop i then []
      else Line (Py.join "," r) :: replay_rows stop (S i) rest
  end.

Definition header_matches (headers : option (list string)) : bool :=
  match headers with
  | Some h => if list_eq_dec string_dec h REQUIRED_HEADERS then true else false
  | None => false
  end.

Definition replay_loop (file : option (list (list string))) (stop : nat -> bool)
  : list replay_signal :=
  match file with
  | None => [Status "Replay error: "]
  | Some rdr =>
      let headers := hd_error rdr in        (* next(rdr, None) *)
      if negb (header_matches headers) then
        [Status "CSV headers mismatch; expected REQUIRED_HEADERS"]
      else replay_rows stop 0 (tl rdr)
  end.

Definition is_line (s : replay_signal) : bool :=
  match s with
  | Line _ => true
  | Status _ => false
  end.

End Gui.

(** ** [fake_sender_udp.py] *)

Module FakeSender.

Import Config.

Section BuildLine.

(** Floating-point values and their fixed-point formatting
    [f"{x:.{k}f}"] are left abstract. *)
Variable Float : Type.
Variable fixed : nat -> Float -> string.

Definition build_line (packet_count : Z) (mode state : string)
           (alt_m temp_c press_kpa vbatt_v : Float)
           (gyro accel mag : Float * Float * Float)
           (auto_rate_dps : Z) (gps_time : string)
           (gps_alt_m lat lon : Float) (gps_sats : Z)
           (cmd_echo mission_time : string) : option string :=
  let '(GYRO_R, GYRO_P, GYRO_Y) := gyro in
  let '(ACCEL_R, ACCEL_P, ACCEL_Y) := accel in
  let '(MAG_R, MAG_P, MAG_Y) := mag in
  match Py.str packet_count, Py.str auto_rate_dps, Py.str gps_sats with
  | Some count_text, Some rate_text, Some sats_text =>
      let fields :=
        [ TEAM_ID; mission_time; count_text; mode; state;
          fixed 1 alt_m; fixed 1 temp_c; fixed 1 press_kpa; fixed 1 vbatt_v;
          fixed 2 GYRO_R; fixed 2 GYRO_P; fixed 2 GYRO_Y;
          fixed 2 ACCEL_R; fixed 2 ACCEL_P; fixed 2 ACCEL_Y;
          fixed 2 MAG_R; fixed 2 MAG_P; fixed 2 MAG_Y;
          rate_text; gps_time; fixed 1 gps_alt_m;
          fixed 4 lat; fixed 4 lon; sats_text; cmd_echo ] in
      Some (Py.join "," fields ++ String (ascii_of_N 10) EmptyString)
  | _, _, _ => None
  end.

End BuildLine.

(** The state schedule of [main] (lines 71-80), by packet count. *)
Definition flight_state (count : Z) : string :=
  if count <? 10 then "LAUNCH_PAD"
  else if count <? 30 then "ASCENT"
  else if count <? 35 then "APOGEE"
  else if count <? 80 then "DESCENT"
  else "LANDED".

End FakeSender.

(** ** Vocabulary of the statements *)

(** The tokens [parse_and_validate] and [append_csv_line] work on:
    [line.strip().split(",")]. *)
Definition tokens (line : string) : list string := Py.split "," (Py.strip line).

(** The schema's field count. *)
Definition N : nat := length Schema.REQUIRED_HEADERS.

(** The token at a position, for positions known to exist. *)
Definition field (fields : list string) (i : nat) : string := nth i fields "".

(** The last [k] elements of a list, oldest first. *)
Definition lastn {A : Type} (k : nat) (l : list A) : list A :=
  skipn (length l - k) l.

(** The sample packet of [schema.py]'s self-test. *)
Definition sample_line : string :=
  "1000,13:14:02,123,F,ASCENT,452.3,27.5,95.3,7.4,0.12,-0.05,0.01,0.02,0.00,-0.01,0.23,0.01,0.04,15,13:14:01,455.1,1.2345,103.8234,8,CXON".

(** The sample packet with trailing optional fields. *)
Definition extended_line : string := sample_line ++ ",OPT1,OPT2".

(** The sample packet with a negative packet count. *)
Definition negative_line : string :=
  "1000,13:14:02,-5,F,ASCENT,452.3,27.5,95.3,7.4,0.12,-0.05,0.01,0.02,0.00,-0.01,0.23,0.01,0.04,15,13:14:01,455.1,1.2345,103.8234,8,CXON".

(** The sample packet with blanks around the mode. *)
Definition spaced_line : string :=
  "1000,13:14:02,123, F ,ASCENT,452.3,27.5,95.3,7.4,0.12,-0.05,0.01,0.02,0.00,-0.01,0.23,0.01,0.04,15,13:14:01,455.1,1.2345,103.8234,8,CXON".

(** The sample packet of another team. *)
Definition foreign_line : string :=
  "9999,13:14:02,123,F,ASCENT,452.3,27.5,95.3,7.4,0.12,-0.05,0.01,0.02,0.00,-0.01,0.23,0.01,0.04,15,13:14:01,455.1,1.2345,103.8234,8,CXON".

Definition sample_row : list string :=
  [ "1000"; "13:14:02"; "123"; "F"; "ASCENT"; "452.3"; "27.5"; "95.3"; "7.4";
    "0.12"; "-0.05"; "0.01"; "0.02"; "0.00"; "-0.01"; "0.23"; "0.01"; "0.04";
    "15"; "13:14:01"; "455.1"; "1.2345"; "103.8234"; "8"; "CXON" ].

(** The packet counts of the lines [parse_and_validate] accepts, in order. *)
Definition accepted_counts (lines : list string) : list Z :=
  flat_map (fun line =>
              match Receiver.parse_and_validate line with
              | Ok (_, n) => [n]
              | Raise _ => []
              end) lines.

(** Their rows. *)
Definition accepted_rows (lines : list string) : list (list string) :=
  flat_map (fun line =>
              match Receiver.parse_and_validate line with
              | Ok (row, _) => [row]
              | Raise _ => []
              end) lines.

(** No comma in any text of the list. *)
Definition comma_free (l : list string) : bool :=
  forallb (fun x => negb (Py.contains "," x)) l.

(** * Properties *)

(** ** The built-ins *)

Lemma upper_char_not_comma (c : ascii) :
  Ascii.eqb (Py.upper_char c) "," = Ascii.eqb c ",".
Proof.
  destruct c as [b0 b1 b2 b3 b4 b5 b6 b7].
  destruct b0, b1, b2, b3, b4, b5, b6, b7; reflexivity.
Qed.

Lemma upper_keeps_commas (s : string) :
  Py.contains "," (Py.upper s) = Py.contains "," s.
Proof.
  induction s as [|c s IH]; simpl.
  - reflexivity.
  - now rewrite upper_char_not_comma, IH.
Qed.

Lemma split_not_nil (sep : ascii) (s : string) : Py.split sep s <> [].
Proof.
  destruct s as [|c s]; simpl.
  - discriminate.
  - destruct (Ascii.eqb c sep); [discriminate|].
    destruct (Py.split sep s); discriminate.
Qed.

(** Joining the tokens gives the text back: a token is never rewritten. *)
Lemma join_split (sep : ascii) (s : string) :
  Py.join (String sep "") (Py.split sep s) = s.
Proof.
  induction s as [|c s IH]; simpl.
  - reflexivity.
  - destruct (Ascii.eqb c sep) eqn:E.
    + apply Ascii.eqb_eq in E; subst c.
      pose proof (split_not_nil sep s) as NE.
      destruct (Py.split sep s) as [|h t]; [contradiction|].
      simpl in *. now rewrite IH.
    + pose proof (split_not_nil sep s) as NE.
      destruct (Py.split sep s) as [|h t]; [contradiction|].
      destruct t as [|h' t]; simpl in *; now rewrite <- IH.
Qed.

(** ** [format_cmd] *)

Example format_cx_on : CmdSender.format_cmd ["cx"; "on"] = Ok "CMD,1000,CX,ON".
Proof. reflexivity. Qed.

Example format_st_time : CmdSender.format_cmd ["st"; "13:14:02"] = Ok "CMD,1000,ST,13:14:02".
Proof. reflexivity. Qed.

Example format_st_abc : CmdSender.format_cmd ["st"; "abc"] = Raise "ST must be hh:mm:ss or GPS".
Proof. reflexivity. Qed.

Example format_cal_alone : CmdSender.format_cmd ["cal"] = Ok "CMD,1000,CAL".
Proof. reflexivity. Qed.

(** The CAL branch returns before looking at the rest of the list. *)
Lemma format_cal_any_arguments (p0 : string) (args : list string) :
  Py.upper p0 = "CAL" ->
  CmdSender.format_cmd (p0 :: args) = Ok "CMD,1000,CAL".
Proof.
  intros H. unfold CmdSender.format_cmd. rewrite H. reflexivity.
Qed.

(** C1 (fails on the code).  The claim asks that a CAL command with more
    than one token be refused.  [format_cmd] does not count the tokens of
    CAL, unlike every other command: with the two tokens CAL and EXTRA it
    returns the wire text of a bare CAL. *)
Theorem format_cal_extra_token_accepted :
  CmdSender.format_cmd ["CAL"; "EXTRA"] = Ok "CMD,1000,CAL".
Proof. reflexivity. Qed.

(** C8.  A three-token MEC command whose device token contains a comma is
    refused: [format_cmd] raises and returns no wire text, whatever the third
    token is. *)
Theorem format_mec_comma_refused (name device arg : string) :
  Py.upper name = "MEC" ->
  Py.contains "," device = true ->
  exists msg : string,
    CmdSender.format_cmd [name; device; arg] = Raise msg /\
    (msg = "DEVICE must not contain commas" \/ msg = "Usage: MEC <DEVICE> <ON|OFF>").
Proof.
  intros Hname Hcomma.
  unfold CmdSender.format_cmd. rewrite Hname. cbn [String.eqb Ascii.eqb Bool.eqb].
  rewrite upper_keeps_commas, Hcomma.
  destruct (Py.mem (Py.upper arg) ["ON"; "OFF"]); eauto.
Qed.

Lemma format_mec_comma_refused_witness :
  exists msg : string,
    CmdSender.format_cmd ["mec"; "se,rvo"; "on"] = Raise msg /\
    (msg = "DEVICE must not contain commas" \/ msg = "Usage: MEC <DEVICE> <ON|OFF>").
Proof.
  apply (format_mec_comma_refused "mec" "se,rvo" "on"); reflexivity.
Defined.

Example format_mec_se_rvo :
  CmdSender.format_cmd ["mec"; "se,rvo"; "on"] = Raise "DEVICE must not contain commas".
Proof. reflexivity. Qed.

(** ** [int] on decimal literals *)

Lemma digit_is_plain (c : ascii) :
  Py.is_digit c = true ->
  Py.int_space c = false /\ Ascii.eqb c "+" = false /\
  Ascii.eqb c "-" = false /\ Ascii.eqb c "_" = false /\
  exists d, Py.digit_value c = Some d /\ 0 <= d <= 9.
Proof.
  destruct c as [b0 b1 b2 b3 b4 b5 b6 b7].
  destruct b0, b1, b2, b3, b4, b5, b6, b7; cbv; try discriminate; intros _;
    repeat split; eexists; (split; [reflexivity | split; discriminate]).
Qed.

Lemma scan_all_digits (s : string) :
  Py.all_digits s = true ->
  forall (acc : Z) (nd : nat), 0 <= acc ->
  exists v : Z,
    Py.scan_digits s false acc nd = Some (v, (nd + String.length s)%nat, "") /\ 0 <= v.
Proof.
  induction s as [|c s IH];
    cbn [Py.scan_digits Py.all_digits String.length]; intros Hd acc nd Hacc.
  - exists acc. now rewrite Nat.add_0_r.
  - apply andb_true_iff in Hd as [Hc Hs].
    destruct (digit_is_plain c Hc) as (_ & _ & _ & _ & d & Hv & Hr).
    rewrite Hv.
    destruct (IH Hs (10 * acc + d) (S nd) ltac:(lia)) as (v & Hscan & Hv0).
    exists v. rewrite Hscan. split; [|assumption].
    now rewrite Nat.add_succ_r.
Qed.

(** Every run of at most [int_max_str_digits] digits is an integer for [int],
    and so is the same run behind a minus sign, with the opposite value. *)
Lemma int_signed_digits (ds : string) :
  Py.isdigit ds = true ->
  (String.length ds <= Py.int_max_str_digits)%nat ->
  exists n : Z,
    0 <= n /\ Py.int ds = Some n /\ Py.int (String "-" ds) = Some (- n).
Proof.
  intros Hd Hlen.
  destruct ds as [|c s]; [discriminate|].
  unfold Py.isdigit in Hd.
  pose proof Hd as Hall.
  simpl in Hd. apply andb_true_iff in Hd as [Hc _].
  destruct (digit_is_plain c Hc) as (Hsp & Hplus & Hminus & Hus & _).
  destruct (scan_all_digits (String c s) Hall 0 0%nat ltac:(lia)) as (v & Hscan & Hv).
  rewrite Nat.add_0_l in Hscan.
  assert (Hlim : (Py.int_max_str_digits <? String.length (String c s))%nat = false)
    by now apply Nat.ltb_ge.
  exists v. split; [assumption|]. split.
  - unfold Py.int.
    cbn [Py.skip_int_space]. rewrite Hsp, Hplus, Hminus.
    cbv beta iota zeta. cbn [Py.starts_with_underscore].
    rewrite Hus, Hscan, Hlim.
    reflexivity.
  - unfold Py.int.
    change (Py.skip_int_space (String "-" (String c s))) with (String "-" (String c s)).
    cbn [Ascii.eqb Bool.eqb]. cbv beta iota zeta. cbn [Py.starts_with_underscore].
    rewrite Hus, Hscan, Hlim.
    reflexivity.
Qed.

Example int_minus_five : Py.int "-5" = Some (-5).
Proof. reflexivity. Qed.

Example int_rejects :
  map Py.int [""; "-"; "- 5"; "1.0"; "0x10"; "_1"; "1_"; "1__0"; "5 5"; "abc"]
  = [None; None; None; None; None; None; None; None; None; None].
Proof. reflexivity. Qed.

Example int_accepts :
  map Py.int ["0"; "007"; "+5"; " 12 "; "1_000"; "-0"]
  = [Some 0; Some 7; Some 5; Some 12; Some 1000; Some 0].
Proof. reflexivity. Qed.

(** ** [schema.py] *)

Lemma headers_distinct : NoDup Schema.REQUIRED_HEADERS.
Proof.
  unfold Schema.REQUIRED_HEADERS.
  repeat (constructor; [simpl; intuition discriminate|]).
  constructor.
Qed.

(** [INDEX] sends each header to its position. *)
Lemma index_positions :
  map Schema.INDEX Schema.REQUIRED_HEADERS = map Some (seq 0 N).
Proof. reflexivity. Qed.

(** ** [parse_and_validate] *)

Lemma item_at (fields : list string) (name : string) (i : nat) :
  Schema.INDEX name = Some i ->
  (i < length fields)%nat ->
  Receiver.item fields name = Ok (field fields i).
Proof.
  intros Hi Hlt. unfold Receiver.item, field. rewrite Hi.
  destruct (nth_error fields i) as [v|] eqn:E.
  - now rewrite (nth_error_nth _ _ "" E).
  - apply nth_error_None in E. lia.
Qed.

(** With fewer than [N] tokens nothing else is looked at. *)
Lemma parse_too_few (line : string) :
  (length (tokens line) < N)%nat ->
  Receiver.parse_and_validate line = Raise (Receiver.TooFewFields (length (tokens line)) N).
Proof.
  intros H. unfold Receiver.parse_and_validate, Schema.has_required_field_count.
  fold (tokens line). fold N.
  apply Nat.leb_gt in H. rewrite H. reflexivity.
Qed.

(** Once the count, team, mode and state checks pass, the outcome is decided
    by [int] on the third token alone. *)
Lemma parse_after_checks (line : string) :
  (N <= length (tokens line))%nat ->
  Py.strip (field (tokens line) 0) = Config.TEAM_ID ->
  Schema.is_valid_mode (Py.strip (field (tokens line) 3)) = true ->
  Schema.is_valid_state (Py.strip (field (tokens line) 4)) = true ->
  Receiver.parse_and_validate line =
    match Py.int (field (tokens line) 2) with
    | Some n => Ok (firstn N (tokens line), n)
    | None => Raise (Receiver.PacketCountNotInt (field (tokens line) 2))
    end.
Proof.
  intros Hlen Hteam Hmode Hstate.
  unfold Receiver.parse_and_validate, Schema.has_required_field_count.
  fold (tokens line). fold N.
  assert (HN : N = 25%nat) by reflexivity.
  rewrite (proj2 (Nat.leb_le _ _) Hlen).
  cbn [bind ensure].
  rewrite (item_at (tokens line) "TEAM_ID" 0) by (reflexivity || lia).
  cbn [bind]. rewrite Hteam, String.eqb_refl. cbn [bind ensure].
  rewrite (item_at (tokens line) "MODE" 3) by (reflexivity || lia).
  cbn [bind]. rewrite Hmode. cbn [bind ensure].
  rewrite (item_at (tokens line) "STATE" 4) by (reflexivity || lia).
  cbn [bind]. rewrite Hstate. cbn [bind ensure].
  rewrite (item_at (tokens line) "PACKET_COUNT" 2) by (reflexivity || lia).
  cbn [bind].
  destruct (Py.int (field (tokens line) 2)); reflexivity.
Qed.

Example parse_sample :
  Receiver.parse_and_validate sample_line = Ok (sample_row, 123).
Proof. reflexivity. Qed.

Lemma field_firstn (fields : list string) (k i : nat) :
  (i < k)%nat -> field (firstn k fields) i = field fields i.
Proof.
  unfold field. revert k i.
  induction fields as [|f fields IH]; intros k i Hlt.
  - now rewrite firstn_nil.
  - destruct k as [|k]; [lia|]. destruct i as [|i]; simpl.
    + reflexivity.
    + apply IH. lia.
Qed.

Lemma firstn_full_length (fields : list string) (k : nat) :
  length (firstn k fields) = k -> (k <= length fields)%nat.
Proof.
  intros H. rewrite length_firstn in H. lia.
Qed.

(** C2 (fails on the code).  The claim asks that a negative packet count
    such as -5 be refused.  [parse_and_validate] converts the field with
    [int], which takes a sign: the line is decoded, with sequence -5. *)
Lemma negative_packet_count_accepted :
  field (tokens negative_line) 2 = "-5" /\
  exists row : list string,
    Receiver.parse_and_validate negative_line = Ok (row, -5) /\ field row 2 = "-5".
Proof.
  split; [reflexivity|]. eexists. split; reflexivity.
Qed.

(** C2, amended.  For every line that passes the field-count, team, mode and
    state checks, [parse_and_validate] raises exactly when [int] refuses the
    packet-count field, and then with the packet-count error; when [int]
    returns [n], of either sign, the line is decoded with sequence [n]. *)
Theorem packet_count_error_iff_not_int (line : string) :
  (N <= length (tokens line))%nat ->
  Py.strip (field (tokens line) 0) = Config.TEAM_ID ->
  Schema.is_valid_mode (Py.strip (field (tokens line) 3)) = true ->
  Schema.is_valid_state (Py.strip (field (tokens line) 4)) = true ->
  let count := field (tokens line) 2 in
  ((exists e, Receiver.parse_and_validate line = Raise e) <-> Py.int count = None) /\
  (forall e, Receiver.parse_and_validate line = Raise e ->
             e = Receiver.PacketCountNotInt count) /\
  (forall n, Py.int count = Some n ->
             Receiver.parse_and_validate line = Ok (firstn N (tokens line), n)).
Proof.
  intros Hlen Hteam Hmode Hstate count.
  rewrite (parse_after_checks line Hlen Hteam Hmode Hstate). fold count.
  destruct (Py.int count) as [n|]; repeat split.
  - intros [e He]. discriminate.
  - discriminate.
  - intros e He. discriminate.
  - intros m Hm. now injection Hm as ->.
  - eauto.
  - intros e He. now injection He as <-.
  - discriminate.
Qed.

Lemma packet_count_error_iff_not_int_witness :
  Receiver.parse_and_validate negative_line = Ok (firstn N (tokens negative_line), -5).
Proof.
  refine (proj2 (proj2 (packet_count_error_iff_not_int negative_line _ _ _ _)) (-5) _).
  - apply Nat.leb_le. reflexivity.
  - reflexivity.
  - reflexivity.
  - reflexivity.
  - reflexivity.
Defined.

(** C6.  A line with at least [N] tokens that passes every check is decoded
    into exactly its first [N] tokens, each as it stands in the line, with the
    integer read from the packet count; what follows the [N]-th token plays no
    part: any line with the same first [N] tokens gives the same outcome. *)
Theorem parse_returns_first_N_tokens (line : string) (n : Z) :
  (N <= length (tokens line))%nat ->
  Py.strip (field (tokens line) 0) = Config.TEAM_ID ->
  Schema.is_valid_mode (Py.strip (field (tokens line) 3)) = true ->
  Schema.is_valid_state (Py.strip (field (tokens line) 4)) = true ->
  Py.int (field (tokens line) 2) = Some n ->
  let row := firstn N (tokens line) in
  Receiver.parse_and_validate line = Ok (row, n) /\
  length row = N /\
  (forall i, (i < N)%nat -> field row i = field (tokens line) i) /\
  (forall line', firstn N (tokens line') = row ->
                 Receiver.parse_and_validate line' = Ok (row, n)).
Proof.
  intros Hlen Hteam Hmode Hstate Hint row.
  assert (Hrow : length row = N) by (unfold row; rewrite length_firstn; lia).
  repeat split.
  - rewrite (parse_after_checks line Hlen Hteam Hmode Hstate), Hint. reflexivity.
  - exact Hrow.
  - intros i Hi. now apply field_firstn.
  - intros line' Hsame.
    assert (Hlen' : (N <= length (tokens line'))%nat)
      by (apply firstn_full_length; now rewrite Hsame).
    assert (Hf : forall i, (i < N)%nat -> field (tokens line') i = field (tokens line) i).
    { intros i Hi.
      rewrite <- (field_firstn (tokens line') N i Hi), Hsame.
      now apply field_firstn. }
    assert (HN : N = 25%nat) by reflexivity.
    rewrite (parse_after_checks line' Hlen'); rewrite ?Hf by lia; try assumption.
    now rewrite Hint, Hsame.
Qed.

Lemma parse_returns_first_N_tokens_witness :
  Receiver.parse_and_validate extended_line = Ok (sample_row, 123) /\
  length (tokens extended_line) = 27%nat.
Proof.
  split; [|reflexivity].
  refine (proj1 (parse_returns_first_N_tokens extended_line 123 _ _ _ _ _)).
  - apply Nat.leb_le. reflexivity.
  - reflexivity.
  - reflexivity.
  - reflexivity.
  - reflexivity.
Defined.

(** C10.  The team, mode and state checks look at each field with the blanks
    around it removed, and the record keeps the fields as received: an
    otherwise valid line whose mode field is " F " is decoded, and the mode
    field of its record is still " F ", a text that is itself no allowed
    mode. *)
Theorem spaced_mode_accepted_and_kept (line : string) (n : Z) :
  (N <= length (tokens line))%nat ->
  Py.strip (field (tokens line) 0) = Config.TEAM_ID ->
  field (tokens line) 3 = " F " ->
  Schema.is_valid_state (Py.strip (field (tokens line) 4)) = true ->
  Py.int (field (tokens line) 2) = Some n ->
  exists row : list string,
    Receiver.parse_and_validate line = Ok (row, n) /\
    field row 3 = " F " /\
    field row 0 = field (tokens line) 0 /\
    field row 4 = field (tokens line) 4 /\
    Schema.is_valid_mode " F " = false.
Proof.
  intros Hlen Hteam Hmode Hstate Hint.
  assert (HN : N = 25%nat) by reflexivity.
  exists (firstn N (tokens line)). repeat split.
  - rewrite (parse_after_checks line Hlen Hteam); try assumption.
    + now rewrite Hint.
    + rewrite Hmode. reflexivity.
  - rewrite field_firstn by lia. exact Hmode.
  - apply field_firstn. lia.
  - apply field_firstn. lia.
Qed.

Lemma spaced_mode_accepted_and_kept_witness :
  exists row : list string,
    Receiver.parse_and_validate spaced_line = Ok (row, 123) /\
    field row 3 = " F " /\
    field row 0 = field (tokens spaced_line) 0 /\
    field row 4 = field (tokens spaced_line) 4 /\
    Schema.is_valid_mode " F " = false.
Proof.
  apply (spaced_mode_accepted_and_kept spaced_line 123).
  - apply Nat.leb_le. reflexivity.
  - reflexivity.
  - reflexivity.
  - reflexivity.
  - reflexivity.
Defined.

(** ** The packet-count gap rule *)

Lemma gap_update_delta (last : option Z) (total seq : Z) :
  gap_update (last, total) seq = (Some seq, total + gap_delta last seq).
Proof.
  unfold gap_update, gap_delta.
  destruct last as [l|]; [destruct (l + 1 <? seq)|]; f_equal; lia.
Qed.

Lemma gap_delta_nonneg (last : option Z) (seq : Z) : 0 <= gap_delta last seq.
Proof.
  unfold gap_delta. destruct last as [l|]; [|lia].
  destruct (l + 1 <? seq) eqn:E; [apply Z.ltb_lt in E|]; lia.
Qed.

(** The running total never decreases. *)
Lemma gap_run_monotone (seqs : list Z) (st : gap_state) :
  snd st <= snd (gap_run st seqs).
Proof.
  revert st. unfold gap_run.
  induction seqs as [|s seqs IH]; intros [last total]; cbn [fold_left snd].
  - lia.
  - specialize (IH (gap_update (last, total) s)).
    rewrite gap_update_delta in IH |- *. cbn [snd] in IH.
    pose proof (gap_delta_nonneg last s). lia.
Qed.

(** Over counts that only go up, the total is the number of counts skipped
    between the first and the last one seen. *)
Lemma gap_run_increasing (seqs : list Z) (first total : Z) :
  (forall a b, In (a, b) (combine (first :: seqs) seqs) -> a < b) ->
  gap_run (Some first, total) seqs =
    (Some (last seqs first),
     total + (last seqs first - first) - Z.of_nat (length seqs)).
Proof.
  revert first total.
  induction seqs as [|s seqs IH]; intros first total Hinc.
  - simpl. f_equal. lia.
  - assert (Hfs : first < s) by (apply Hinc; now left).
    unfold gap_run. cbn [fold_left]. rewrite gap_update_delta.
    fold (gap_run (Some s, total + gap_delta (Some first) s) seqs).
    rewrite IH.
    + assert (Hl : last (s :: seqs) first = last seqs s)
        by (clear; revert s; induction seqs as [|x xs IHx]; intros s;
            [reflexivity | cbn [last] in *; destruct xs; [reflexivity | apply IHx]]).
      rewrite Hl. f_equal.
      unfold gap_delta. destruct (first + 1 <? s) eqn:E;
        [apply Z.ltb_lt in E | apply Z.ltb_ge in E];
        cbn [length]; lia.
    + intros a b Hin. apply Hinc. now right.
Qed.


(** ** The loop of [receiver_udp.main] *)

Section ReceiverLoop.

Context {Clock : Type}.
Implicit Types (st : Receiver.state Clock) (now : Clock).

Lemma blank_line_is_rejected (line : string) :
  Py.strip line = "" ->
  Receiver.parse_and_validate line = Raise (Receiver.TooFewFields 1 N).
Proof.
  intros H.
  assert (Ht : tokens line = [""]) by (unfold tokens; now rewrite H).
  rewrite parse_too_few; rewrite Ht; [reflexivity | cbv; lia].
Qed.

(** An accepted line moves [last_tx_count] and [lost] by the gap rule,
    counts one more packet and appends its row to the log. *)
Lemma main_step_accepts st now (line : string) (row : list string) (n : Z) :
  Receiver.parse_and_validate line = Ok (row, n) ->
  let st' := fst (Receiver.main_step st now line) in
  (Receiver.last_tx_count st', Receiver.lost st')
    = gap_update (Receiver.last_tx_count st, Receiver.lost st) n /\
  Receiver.received st' = Receiver.received st + 1 /\
  Receiver.csv_rows st' = (Receiver.csv_rows st ++ [row])%list /\
  Receiver.last_rx_time st' = now.
Proof.
  intros Hok. unfold Receiver.main_step.
  destruct (String.eqb (Py.strip line) "") eqn:E.
  - apply String.eqb_eq in E. rewrite (blank_line_is_rejected line E) in Hok.
    discriminate.
  - rewrite Hok.
    destruct (gap_update (Receiver.last_tx_count st, Receiver.lost st) n)
      as [last' lost'] eqn:G.
    cbn. repeat split; reflexivity.
Qed.

(** C4, receiver side.  A line that [parse_and_validate] refuses, for any of
    its reasons, leaves the loop's state as it was: the last packet count, the
    lost and received counters, the last reception time and the rows written
    to the log. *)
Lemma main_step_rejects st now (line : string) (e : Receiver.parse_error) :
  Receiver.parse_and_validate line = Raise e ->
  fst (Receiver.main_step st now line) = st /\
  (Py.strip line <> "" ->
   snd (Receiver.main_step st now line) = [Receiver.ParseErrorLine e (substring 0 80 line)]).
Proof.
  intros Herr. unfold Receiver.main_step.
  destruct (String.eqb (Py.strip line) "") eqn:E.
  - split; [reflexivity|]. apply String.eqb_eq in E. congruence.
  - rewrite Herr. split; reflexivity.
Qed.

End ReceiverLoop.

(** ** The bounded list of rows *)

Section Rows.

Context {A : Type}.
Implicit Types (l : list A) (k : nat).

Lemma lastn_length l k : length (lastn k l) = Nat.min k (length l).
Proof. unfold lastn. rewrite length_skipn. lia. Qed.

Lemma lastn_all l k : (length l <= k)%nat -> lastn k l = l.
Proof.
  intros H. unfold lastn. now replace (length l - k)%nat with 0%nat by lia.
Qed.

(** Keeping the last [k] after every append is keeping the last [k] of
    everything appended. *)
Lemma lastn_snoc l k (x : A) :
  (1 <= k)%nat -> lastn k (lastn k l ++ [x]) = lastn k (l ++ [x]).
Proof.
  intros Hk.
  destruct (Nat.le_gt_cases (length l) k) as [Hle|Hgt].
  - now rewrite (lastn_all l k Hle).
  - unfold lastn at 1 3.
    rewrite !length_app, lastn_length. cbn [length].
    replace (Nat.min k (length l) + 1 - k)%nat with 1%nat by lia.
    unfold lastn.
    replace (length l + 1 - k)%nat with (1 + (length l - k))%nat by lia.
    rewrite <- skipn_skipn. f_equal.
    rewrite skipn_app.
    replace (length l - k - length l)%nat with 0%nat by lia.
    reflexivity.
Qed.

(** [l[-c:]] for a positive [c] is the last [c] elements. *)
Lemma slice_from_neg l (c : Z) :
  1 <= c -> Py.slice_from (- c) l = lastn (Z.to_nat c) l.
Proof.
  intros Hc. unfold Py.slice_from, lastn.
  replace (- c <? 0) with true by (symmetry; apply Z.ltb_lt; lia).
  f_equal. lia.
Qed.

(** [l[-0:]] is [l[0:]], the whole list. *)
Lemma slice_from_zero l : Py.slice_from (- 0) l = l.
Proof. unfold Py.slice_from. cbn. destruct l; reflexivity. Qed.

End Rows.

Section DisplayModel.

Context {Clock : Type}.
Implicit Types (m : Gui.TelemetryModel Clock) (now : Clock) (r : Gui.row Clock).

(** With a positive [maxlen] the append-and-trim keeps the last [maxlen]
    rows. *)
Lemma push_lastn (cap : Z) (rs : list (Gui.row Clock)) r :
  1 <= cap -> Gui.push cap rs r = lastn (Z.to_nat cap) (rs ++ [r]).
Proof.
  intros Hc. unfold Gui.push.
  destruct (cap <? Z.of_nat (length (rs ++ [r]))) eqn:E.
  - now apply slice_from_neg.
  - apply Z.ltb_ge in E. symmetry. apply lastn_all. lia.
Qed.

(** With [maxlen = 0] the trim is [rows[-0:]]: nothing is ever dropped. *)
Lemma push_zero (rs : list (Gui.row Clock)) r :
  Gui.push 0 rs r = (rs ++ [r])%list.
Proof.
  unfold Gui.push.
  destruct (0 <? Z.of_nat (length (rs ++ [r]))); [apply slice_from_zero | reflexivity].
Qed.

(** Rows pushed one after the other into an empty list, for a positive
    [maxlen]: what is held is the last [maxlen] rows pushed, oldest first,
    hence never more than [maxlen]. *)
Lemma pushes_keep_latest (cap : Z) (pushed : list (Gui.row Clock)) :
  1 <= cap ->
  fold_left (Gui.push cap) pushed [] = lastn (Z.to_nat cap) pushed /\
  Z.of_nat (length (fold_left (Gui.push cap) pushed [])) <= cap.
Proof.
  intros Hc.
  assert (G : forall hist : list (Gui.row Clock),
             fold_left (Gui.push cap) pushed (lastn (Z.to_nat cap) hist)
             = lastn (Z.to_nat cap) (hist ++ pushed)).
  { induction pushed as [|r pushed IH]; intros hist; cbn [fold_left].
    - now rewrite app_nil_r.
    - rewrite push_lastn by assumption.
      rewrite lastn_snoc by lia.
      rewrite IH. now rewrite <- app_assoc. }
  specialize (G []). unfold lastn at 1 in G. cbn [length skipn Nat.sub] in G.
  cbn [app] in G.
  rewrite G. split; [reflexivity|].
  rewrite lastn_length. lia.
Qed.

Lemma packet_count_cell (parts : list string) :
  length parts = N ->
  Gui.get "PACKET_COUNT" (combine Schema.REQUIRED_HEADERS parts) = Some (field parts 2).
Proof.
  intros H. change N with 25%nat in H.
  repeat (destruct parts as [|? parts]; cbn [length] in H;
          [try discriminate H | try discriminate H]).
  reflexivity.
Qed.

(** [append_csv_line] by cases: the column count, then the text of the
    packet count. *)
Lemma append_csv_line_cases m now (line : string) :
  Gui.append_csv_line m now line =
    if negb (length (tokens line) =? N)%nat then
      (m, Gui.ErrorSignal (length (tokens line)) N)
    else
      let pkt := field (tokens line) 2 in
      let r := Gui.mkRow (combine Schema.REQUIRED_HEADERS (tokens line)) now in
      let rows' := Gui.push (Gui.maxlen m) (Gui.rows m) r in
      if Py.isdigit pkt then
        match Py.int pkt with
        | Some n =>
            (Gui.mkModel rows' (Gui.maxlen m)
               (fst (gap_update (Gui.last_pkt m, Gui.dropped m) n))
               (snd (gap_update (Gui.last_pkt m, Gui.dropped m) n)),
             Gui.UpdatedSignal r)
        | None => (m, Gui.ValueErrorRaised pkt)
        end
      else
        (Gui.mkModel rows' (Gui.maxlen m) (Gui.last_pkt m) (Gui.dropped m),
         Gui.UpdatedSignal r).
Proof.
  unfold Gui.append_csv_line. fold (tokens line). fold N.
  destruct (length (tokens line) =? N)%nat eqn:E; cbn [negb]; [|reflexivity].
  apply Nat.eqb_eq in E. rewrite (packet_count_cell _ E).
  cbv zeta.
  assert (Hd : negb (String.eqb (field (tokens line) 2) "")
               && Py.isdigit (field (tokens line) 2)
               = Py.isdigit (field (tokens line) 2))
    by (destruct (field (tokens line) 2); reflexivity).
  rewrite Hd.
  destruct (Py.isdigit (field (tokens line) 2)); [|reflexivity].
  destruct (Py.int (field (tokens line) 2)); [|reflexivity].
  destruct (gap_update (Gui.last_pkt m, Gui.dropped m) z); reflexivity.
Qed.

End DisplayModel.

(** An accepted line is pushed on the rows; [maxlen] never changes. *)
Lemma append_pushes {Clock : Type} (m : Gui.TelemetryModel Clock) (now : Clock)
      (line : string) (r : Gui.row Clock) :
  snd (Gui.append_csv_line m now line) = Gui.UpdatedSignal r ->
  Gui.rows (fst (Gui.append_csv_line m now line)) = Gui.push (Gui.maxlen m) (Gui.rows m) r /\
  Gui.maxlen (fst (Gui.append_csv_line m now line)) = Gui.maxlen m /\
  r = Gui.mkRow (combine Schema.REQUIRED_HEADERS (tokens line)) now.
Proof.
  rewrite append_csv_line_cases.
  destruct (negb (length (tokens line) =? N)%nat); [discriminate|].
  cbv zeta.
  destruct (Py.isdigit (field (tokens line) 2));
    [destruct (Py.int (field (tokens line) 2)); [|discriminate]|];
    cbn [fst snd]; intros H; injection H as <-; repeat split.
Qed.



(** Each reason of [parse_and_validate] on a line of its own. *)
Example rejected_lines :
  map Receiver.parse_and_validate
      [ "1000,13:14:02,123,F,ASCENT";
        foreign_line;
        "1000,13:14:02,123,X,ASCENT,452.3,27.5,95.3,7.4,0.12,-0.05,0.01,0.02,0.00,-0.01,0.23,0.01,0.04,15,13:14:01,455.1,1.2345,103.8234,8,CXON";
        "1000,13:14:02,123,F,FLYING,452.3,27.5,95.3,7.4,0.12,-0.05,0.01,0.02,0.00,-0.01,0.23,0.01,0.04,15,13:14:01,455.1,1.2345,103.8234,8,CXON";
        "1000,13:14:02,12x,F,ASCENT,452.3,27.5,95.3,7.4,0.12,-0.05,0.01,0.02,0.00,-0.01,0.23,0.01,0.04,15,13:14:01,455.1,1.2345,103.8234,8,CXON" ]
  = [ Raise (Receiver.TooFewFields 5 25);
      Raise (Receiver.WrongTeamId "9999" "1000");
      Raise (Receiver.BadMode "X");
      Raise (Receiver.BadState "FLYING");
      Raise (Receiver.PacketCountNotInt "12x") ].
Proof. reflexivity. Qed.


(** The display model runs none of the validator's team, mode or state
    checks: a full-width line of another team is stored. *)
Example display_model_takes_foreign_line :
  Receiver.parse_and_validate foreign_line = Raise (Receiver.WrongTeamId "9999" "1000") /\
  length (Gui.rows (fst (Gui.append_csv_line (Gui.init 3) 0 foreign_line))) = 1%nat.
Proof. split; reflexivity. Qed.

(** C5 (fails on the code at capacity 0).  The claim bounds the rows held by
    the capacity after every append.  With [maxlen = 0] the trim is
    [rows[-0:]], the whole list: every row stays, and after two accepted lines
    the model holds two rows. *)
Theorem zero_capacity_keeps_every_row :
  (forall (rs : list (Gui.row Z)) (r : Gui.row Z),
      length (Gui.push 0 rs r) = S (length rs)) /\
  length (Gui.rows (Gui.feed (Gui.init 0) [(1, sample_line); (2, sample_line)])) = 2%nat.
Proof.
  split; [|reflexivity].
  intros rs r. rewrite push_zero, length_app. cbn [length]. lia.
Qed.

(** Capacity 3, four accepted lines: the last three are held, oldest first. *)
Example capacity_three_keeps_last_three :
  map Gui.t_wall
      (Gui.rows (Gui.feed (Gui.init 3)
                   [(1, sample_line); (2, sample_line); (3, sample_line); (4, sample_line)]))
  = [2; 3; 4].
Proof. reflexivity. Qed.

(** C9.  The display model takes a line only when it has exactly [N] tokens:
    with any other count it signals the error and stays as it was.  The
    validator is laxer: the sample packet followed by two more fields is
    decoded by [parse_and_validate] and refused by the model. *)
Theorem append_requires_exact_count {Clock : Type}
        (m : Gui.TelemetryModel Clock) (now : Clock) (line : string) :
  (length (tokens line) <> N ->
   Gui.append_csv_line m now line = (m, Gui.ErrorSignal (length (tokens line)) N)) /\
  (forall r, snd (Gui.append_csv_line m now line) = Gui.UpdatedSignal r ->
             length (tokens line) = N) /\
  (Receiver.parse_and_validate extended_line = Ok (sample_row, 123) /\
   Gui.append_csv_line m now extended_line = (m, Gui.ErrorSignal 27 25)).
Proof.
  repeat split.
  - intros Hne. rewrite append_csv_line_cases.
    apply Nat.eqb_neq in Hne. now rewrite Hne.
  - intros r. rewrite append_csv_line_cases.
    destruct (length (tokens line) =? N)%nat eqn:E; cbn [negb snd].
    + intros _. now apply Nat.eqb_eq.
    + discriminate.
Qed.

Lemma append_requires_exact_count_witness :
  Gui.append_csv_line (Gui.init 3) 5 "1000,13:14:02,123,F,ASCENT"
  = (Gui.init 3, Gui.ErrorSignal 5 25).
Proof.
  refine (proj1 (@append_requires_exact_count Z (Gui.init 3) 5
                   "1000,13:14:02,123,F,ASCENT") _).
  cbv. discriminate.
Defined.

(** ** [CsvReplayer._loop] *)

Lemma header_matches_iff (headers : option (list string)) :
  Gui.header_matches headers = true <-> headers = Some Schema.REQUIRED_HEADERS.
Proof.
  unfold Gui.header_matches. destruct headers as [h|]; [|split; discriminate].
  destruct (list_eq_dec string_dec h Schema.REQUIRED_HEADERS) as [->|Hne].
  - split; reflexivity.
  - split; [discriminate|]. intros H. injection H as ->. contradiction.
Qed.

(** While the stop flag stays down every data row is emitted, joined. *)
Lemma replay_rows_unstopped (stop : nat -> bool) (data : list (list string)) :
  (forall i, stop i = false) ->
  forall i, Gui.replay_rows stop i data = map (fun r => Gui.Line (Py.join "," r)) data.
Proof.
  intros Hs. induction data as [|r data IH]; intros i; simpl.
  - reflexivity.
  - now rewrite Hs, IH.
Qed.

(** C7.  A file whose first row is not the list of required headers, or that
    has no first row, gets the mismatch status and no line is emitted; lines
    are emitted only from a file whose first row is exactly that list, and
    then they are its data rows in order. *)
Theorem replay_requires_exact_header (rdr : list (list string)) (stop : nat -> bool) :
  (hd_error rdr <> Some Schema.REQUIRED_HEADERS ->
   Gui.replay_loop (Some rdr) stop
     = [Gui.Status "CSV headers mismatch; expected REQUIRED_HEADERS"]) /\
  (forall text, In (Gui.Line text) (Gui.replay_loop (Some rdr) stop) ->
                hd_error rdr = Some Schema.REQUIRED_HEADERS) /\
  (hd_error rdr = Some Schema.REQUIRED_HEADERS ->
   Gui.replay_loop (Some rdr) stop = Gui.replay_rows stop 0 (tl rdr) /\
   ((forall i, stop i = false) ->
    Gui.replay_loop (Some rdr) stop = map (fun r => Gui.Line (Py.join "," r)) (tl rdr))).
Proof.
  unfold Gui.replay_loop.
  destruct (Gui.header_matches (hd_error rdr)) eqn:E; cbn [negb].
  - apply header_matches_iff in E. repeat split.
    + intros Hne. contradiction.
    + intros _ _. exact E.
    + intros Hs. now apply replay_rows_unstopped.
  - assert (Hne : hd_error rdr <> Some Schema.REQUIRED_HEADERS).
    { intros H. apply header_matches_iff in H. congruence. }
    repeat split.
    + intros text [H|[]]. discriminate.
    + contradiction.
    + contradiction.
Qed.

Lemma replay_requires_exact_header_witness :
  Gui.replay_loop (Some [["TEAM_ID"; "PACKET_COUNT"]; sample_row]) (fun _ => false)
    = [Gui.Status "CSV headers mismatch; expected REQUIRED_HEADERS"] /\
  Gui.replay_loop (Some [Schema.REQUIRED_HEADERS; sample_row; sample_row]) (fun _ => false)
    = [Gui.Line sample_line; Gui.Line sample_line].
Proof.
  split.
  - refine (proj1 (replay_requires_exact_header
                     [["TEAM_ID"; "PACKET_COUNT"]; sample_row] (fun _ => false)) _).
    discriminate.
  - refine (proj2 (proj2 (proj2 (replay_requires_exact_header
                     [Schema.REQUIRED_HEADERS; sample_row; sample_row] (fun _ => false)))
                     eq_refl) _).
    reflexivity.
Defined.

(** * Further properties of the code *)

(** ** Blanks and separators *)

Lemma lstrip_blank_prefix (w s : string) :
  Py.lstrip w = "" -> Py.lstrip (w ++ s) = Py.lstrip s.
Proof.
  induction w as [|c w IH]; cbn [Py.lstrip append]; intros H.
  - reflexivity.
  - destruct (Py.isspace c); [now apply IH | discriminate].
Qed.

Lemma lstrip_keeps_suffix (s w : string) :
  Py.lstrip s <> "" -> Py.lstrip (s ++ w) = Py.lstrip s ++ w.
Proof.
  induction s as [|c s IH]; cbn [Py.lstrip append]; intros H.
  - contradiction.
  - destruct (Py.isspace c); [now apply IH | reflexivity].
Qed.

Lemma rstrip_blank (w : string) : Py.lstrip w = "" -> Py.rstrip w = "".
Proof.
  induction w as [|c w IH]; cbn [Py.lstrip Py.rstrip]; intros H.
  - reflexivity.
  - destruct (Py.isspace c); [|discriminate]. now rewrite (IH H).
Qed.

Lemma rstrip_blank_suffix (s w : string) :
  Py.lstrip w = "" -> Py.rstrip (s ++ w) = Py.rstrip s.
Proof.
  intros H. induction s as [|c s IH]; cbn [Py.rstrip append].
  - now apply rstrip_blank.
  - now rewrite IH.
Qed.

Lemma rstrip_app_nonspace (a b : string) (c : ascii) :
  Py.isspace c = false ->
  Py.rstrip (a ++ String c b) = a ++ String c (Py.rstrip b).
Proof.
  intros Hc. induction a as [|x a IH]; cbn [Py.rstrip append].
  - rewrite Hc. now destruct (Py.rstrip b).
  - rewrite IH. now destruct a.
Qed.

Lemma rstrip_nonspace_head (c : ascii) (r : string) :
  Py.isspace c = false -> Py.rstrip (String c r) = String c (Py.rstrip r).
Proof. intros Hc. exact (rstrip_app_nonspace "" r c Hc). Qed.

Lemma rstrip_idempotent (s : string) : Py.rstrip (Py.rstrip s) = Py.rstrip s.
Proof.
  induction s as [|c s IH]; cbn [Py.rstrip].
  - reflexivity.
  - destruct (Py.rstrip s) as [|d r] eqn:E.
    + destruct (Py.isspace c) eqn:Hc; cbn [Py.rstrip]; now rewrite ?Hc.
    + cbn [Py.rstrip]. cbn [Py.rstrip] in IH. now rewrite IH.
Qed.

Lemma lstrip_head (s : string) :
  Py.lstrip s = "" \/ exists c r, Py.lstrip s = String c r /\ Py.isspace c = false.
Proof.
  induction s as [|c s IH]; cbn [Py.lstrip].
  - now left.
  - destruct (Py.isspace c) eqn:Hc; [assumption|]. right. eauto.
Qed.

Lemma strip_blank_iff (w : string) : Py.strip w = "" <-> Py.lstrip w = "".
Proof.
  unfold Py.strip. split; intros H.
  - destruct (lstrip_head w) as [E|(c & r & E & Hc)]; [assumption|].
    rewrite E in H.
    rewrite (rstrip_nonspace_head c r Hc) in H. discriminate.
  - now rewrite H.
Qed.

(** Blanks around a text do not change what [strip] gives. *)
Lemma strip_ignores_blanks (w1 s w2 : string) :
  Py.strip w1 = "" -> Py.strip w2 = "" ->
  Py.strip (w1 ++ s ++ w2) = Py.strip s.
Proof.
  intros H1 H2. apply strip_blank_iff in H1, H2.
  unfold Py.strip. rewrite (lstrip_blank_prefix w1 _ H1).
  destruct (lstrip_head s) as [E|(c & r & E & Hc)].
  - rewrite (lstrip_blank_prefix s w2 E), E, H2. reflexivity.
  - rewrite lstrip_keeps_suffix by (rewrite E; discriminate).
    now apply rstrip_blank_suffix.
Qed.

Lemma strip_idempotent (s : string) : Py.strip (Py.strip s) = Py.strip s.
Proof.
  unfold Py.strip.
  destruct (lstrip_head s) as [E|(c & r & E & Hc)]; rewrite E.
  - reflexivity.
  - rewrite (rstrip_nonspace_head c r Hc). cbn [Py.lstrip].
    rewrite Hc. rewrite <- (rstrip_nonspace_head c r Hc).
    apply rstrip_idempotent.
Qed.

Lemma split_no_sep (sep : ascii) (x : string) :
  Py.contains sep x = false -> Py.split sep x = [x].
Proof.
  induction x as [|c x IH]; cbn [Py.contains Py.split]; intros H.
  - reflexivity.
  - apply orb_false_iff in H as [Hc Hx]. rewrite Hc, (IH Hx). reflexivity.
Qed.

Lemma split_app_sep (sep : ascii) (x s : string) :
  Py.contains sep x = false ->
  Py.split sep (x ++ String sep s) = x :: Py.split sep s.
Proof.
  induction x as [|c x IH]; cbn [Py.contains Py.split append]; intros H.
  - now rewrite Ascii.eqb_refl.
  - apply orb_false_iff in H as [Hc Hx]. rewrite Hc, (IH Hx). reflexivity.
Qed.

(** Splitting what [join] built gives the cells back, when no cell holds a
    comma. *)
Lemma split_join (l : list string) :
  l <> [] -> comma_free l = true ->
  Py.split "," (Py.join "," l) = l.
Proof.
  induction l as [|x l IH]; intros Hne Hfree; [contradiction|].
  unfold comma_free in *. cbn [forallb] in Hfree.
  apply andb_true_iff in Hfree as [Hx Hl]. apply negb_true_iff in Hx.
  destruct l as [|y l].
  - cbn [Py.join]. now apply split_no_sep.
  - change (Py.join "," (x :: y :: l)) with (x ++ String "," (Py.join "," (y :: l))).
    rewrite (split_app_sep "," x _ Hx). f_equal. apply IH; [discriminate | assumption].
Qed.

(** ** [parse_and_validate], in full *)

(** The checks in the order the function makes them. *)
Lemma parse_and_validate_cases (line : string) :
  let fields := tokens line in
  Receiver.parse_and_validate line =
    if (length fields <? N)%nat then
      Raise (Receiver.TooFewFields (length fields) N)
    else if negb (String.eqb (Py.strip (field fields 0)) Config.TEAM_ID) then
      Raise (Receiver.WrongTeamId (Py.strip (field fields 0)) Config.TEAM_ID)
    else if negb (Schema.is_valid_mode (Py.strip (field fields 3))) then
      Raise (Receiver.BadMode (Py.strip (field fields 3)))
    else if negb (Schema.is_valid_state (Py.strip (field fields 4))) then
      Raise (Receiver.BadState (Py.strip (field fields 4)))
    else
      match Py.int (field fields 2) with
      | Some n => Ok (firstn N fields, n)
      | None => Raise (Receiver.PacketCountNotInt (field fields 2))
      end.
Proof.
  intros fields. subst fields.
  destruct (length (tokens line) <? N)%nat eqn:E.
  - apply Nat.ltb_lt in E. now apply parse_too_few.
  - apply Nat.ltb_ge in E.
    destruct (String.eqb (Py.strip (field (tokens line) 0)) Config.TEAM_ID) eqn:Ht;
      cbn [negb].
    + apply String.eqb_eq in Ht.
      destruct (Schema.is_valid_mode (Py.strip (field (tokens line) 3))) eqn:Hm;
        cbn [negb].
      * destruct (Schema.is_valid_state (Py.strip (field (tokens line) 4))) eqn:Hs;
          cbn [negb].
        -- now apply parse_after_checks.
        -- unfold Receiver.parse_and_validate, Schema.has_required_field_count.
           fold (tokens line). fold N.
           assert (HN : N = 25%nat) by reflexivity.
           rewrite (proj2 (Nat.leb_le _ _) E). cbn [bind ensure].
           rewrite (item_at (tokens line) "TEAM_ID" 0) by (reflexivity || lia).
           cbn [bind]. rewrite Ht, String.eqb_refl. cbn [bind ensure].
           rewrite (item_at (tokens line) "MODE" 3) by (reflexivity || lia).
           cbn [bind]. rewrite Hm. cbn [bind ensure].
           rewrite (item_at (tokens line) "STATE" 4) by (reflexivity || lia).
           cbn [bind]. rewrite Hs. reflexivity.
      * unfold Receiver.parse_and_validate, Schema.has_required_field_count.
        fold (tokens line). fold N.
        assert (HN : N = 25%nat) by reflexivity.
        rewrite (proj2 (Nat.leb_le _ _) E). cbn [bind ensure].
        rewrite (item_at (tokens line) "TEAM_ID" 0) by (reflexivity || lia).
        cbn [bind]. rewrite Ht, String.eqb_refl. cbn [bind ensure].
        rewrite (item_at (tokens line) "MODE" 3) by (reflexivity || lia).
        cbn [bind]. rewrite Hm. reflexivity.
    + unfold Receiver.parse_and_validate, Schema.has_required_field_count.
      fold (tokens line). fold N.
      assert (HN : N = 25%nat) by reflexivity.
      rewrite (proj2 (Nat.leb_le _ _) E). cbn [bind ensure].
      rewrite (item_at (tokens line) "TEAM_ID" 0) by (reflexivity || lia).
      cbn [bind]. rewrite Ht. reflexivity.
Qed.

Lemma parse_ok_iff (line : string) (row : list string) (n : Z) :
  Receiver.parse_and_validate line = Ok (row, n) <->
  (N <= length (tokens line))%nat /\
  Py.strip (field (tokens line) 0) = Config.TEAM_ID /\
  Schema.is_valid_mode (Py.strip (field (tokens line) 3)) = true /\
  Schema.is_valid_state (Py.strip (field (tokens line) 4)) = true /\
  Py.int (field (tokens line) 2) = Some n /\
  row = firstn N (tokens line).
Proof.
  rewrite parse_and_validate_cases. cbv zeta.
  destruct (length (tokens line) <? N)%nat eqn:E.
  { apply Nat.ltb_lt in E. split; [discriminate|]. intros (H & _). lia. }
  apply Nat.ltb_ge in E.
  destruct (String.eqb (Py.strip (field (tokens line) 0)) Config.TEAM_ID) eqn:Ht;
    cbn [negb].
  2:{ apply String.eqb_neq in Ht. split; [discriminate|]. intros (_ & H & _).
      contradiction. }
  apply String.eqb_eq in Ht.
  destruct (Schema.is_valid_mode (Py.strip (field (tokens line) 3))) eqn:Hm;
    cbn [negb].
  2:{ split; [discriminate|]. intros (_ & _ & H & _). discriminate. }
  destruct (Schema.is_valid_state (Py.strip (field (tokens line) 4))) eqn:Hs;
    cbn [negb].
  2:{ split; [discriminate|]. intros (_ & _ & _ & H & _). discriminate. }
  destruct (Py.int (field (tokens line) 2)) as [m|].
  - split.
    + intros H. injection H as <- <-. repeat split; assumption.
    + intros (_ & _ & _ & _ & H & ->). now injection H as ->.
  - split; [discriminate|]. intros (_ & _ & _ & _ & H & _). discriminate.
Qed.

(** A line is accepted exactly when it has at least [N] tokens, its team
    field is the configured team, its mode and state fields are allowed (all
    three compared without surrounding blanks) and [int] reads its packet
    count; the record is then the first [N] tokens and the count read. *)
Theorem parse_accepts_iff (line : string) (row : list string) (n : Z) :
  Receiver.parse_and_validate line = Ok (row, n) <->
  (N <= length (tokens line))%nat /\
  Py.strip (field (tokens line) 0) = Config.TEAM_ID /\
  Schema.is_valid_mode (Py.strip (field (tokens line) 3)) = true /\
  Schema.is_valid_state (Py.strip (field (tokens line) 4)) = true /\
  Py.int (field (tokens line) 2) = Some n /\
  row = firstn N (tokens line).
Proof. apply parse_ok_iff. Qed.

(** Every error names the first check that failed, and a subscript never
    fails: too few tokens; else a foreign team; else a mode outside the
    allowed set; else a state outside the allowed set; else a packet count
    [int] refuses. *)
Theorem parse_error_names_first_failed_check (line : string) (e : Receiver.parse_error) :
  Receiver.parse_and_validate line = Raise e ->
  let fields := tokens line in
  (e = Receiver.TooFewFields (length fields) N /\ (length fields < N)%nat) \/
  ((N <= length fields)%nat /\
   ((e = Receiver.WrongTeamId (Py.strip (field fields 0)) Config.TEAM_ID /\
     Py.strip (field fields 0) <> Config.TEAM_ID) \/
    (Py.strip (field fields 0) = Config.TEAM_ID /\
     ((e = Receiver.BadMode (Py.strip (field fields 3)) /\
       Schema.is_valid_mode (Py.strip (field fields 3)) = false) \/
      (Schema.is_valid_mode (Py.strip (field fields 3)) = true /\
       ((e = Receiver.BadState (Py.strip (field fields 4)) /\
         Schema.is_valid_state (Py.strip (field fields 4)) = false) \/
        (Schema.is_valid_state (Py.strip (field fields 4)) = true /\
         e = Receiver.PacketCountNotInt (field fields 2) /\
         Py.int (field fields 2) = None))))))).
Proof.
  intros Hp fields. subst fields.
  rewrite parse_and_validate_cases in Hp. cbv zeta in Hp.
  destruct (length (tokens line) <? N)%nat eqn:E.
  { apply Nat.ltb_lt in E. injection Hp as <-. now left. }
  apply Nat.ltb_ge in E. right. split; [assumption|].
  destruct (String.eqb (Py.strip (field (tokens line) 0)) Config.TEAM_ID) eqn:Ht;
    cbn [negb] in Hp.
  2:{ apply String.eqb_neq in Ht. injection Hp as <-. now left. }
  apply String.eqb_eq in Ht. right. split; [assumption|].
  destruct (Schema.is_valid_mode (Py.strip (field (tokens line) 3))) eqn:Hm;
    cbn [negb] in Hp.
  2:{ injection Hp as <-. now left. }
  right. split; [reflexivity|].
  destruct (Schema.is_valid_state (Py.strip (field (tokens line) 4))) eqn:Hs;
    cbn [negb] in Hp.
  2:{ injection Hp as <-. now left. }
  right. split; [reflexivity|].
  destruct (Py.int (field (tokens line) 2)) as [m|]; [discriminate|].
  injection Hp as <-. now split.
Qed.

Lemma parse_error_names_first_failed_check_witness :
  exists e : Receiver.parse_error,
    Receiver.parse_and_validate foreign_line = Raise e /\
    (N <= length (tokens foreign_line))%nat /\
    e = Receiver.WrongTeamId "9999" "1000".
Proof.
  exists (Receiver.WrongTeamId "9999" "1000"). split; [reflexivity|].
  destruct (parse_error_names_first_failed_check foreign_line
              (Receiver.WrongTeamId "9999" "1000") eq_refl) as [[H1 H2]|[Hlen _]].
  - discriminate H1.
  - split; [exact Hlen | reflexivity].
Defined.

(** Blanks before and after a line, such as the CR LF that ends a packet,
    play no part in its validation. *)
Theorem parse_ignores_surrounding_blanks (w1 line w2 : string) :
  Py.strip w1 = "" -> Py.strip w2 = "" ->
  Receiver.parse_and_validate (w1 ++ line ++ w2) = Receiver.parse_and_validate line.
Proof.
  intros H1 H2. unfold Receiver.parse_and_validate.
  now rewrite (strip_ignores_blanks w1 line w2 H1 H2).
Qed.

Lemma parse_ignores_surrounding_blanks_witness :
  Receiver.parse_and_validate
    (" " ++ sample_line ++ String (ascii_of_N 13) (String (ascii_of_N 10) ""))
  = Receiver.parse_and_validate sample_line.
Proof.
  apply (parse_ignores_surrounding_blanks
           " " sample_line (String (ascii_of_N 13) (String (ascii_of_N 10) "")));
    reflexivity.
Defined.

(** ** [INDEX] *)

Lemma index_from_spec (headers : list string) :
  NoDup headers ->
  forall (k : nat) (name : string) (j : nat),
    Schema.index_from k headers name = Some j <->
    (k <= j)%nat /\ nth_error headers (j - k) = Some name.
Proof.
  induction headers as [|h rest IH]; intros Hnd k name j.
  - cbn [Schema.index_from]. split; [discriminate|].
    intros [_ H]. now destruct (j - k)%nat.
  - inversion Hnd as [|? ? Hnotin Hrest]; subst.
    cbn [Schema.index_from].
    destruct (Schema.index_from (S k) rest name) as [j'|] eqn:E.
    + apply (IH Hrest) in E as [Hle Hnth]. split.
      * intros H. injection H as <-. split; [lia|].
        replace (j' - k)%nat with (S (j' - S k)) by lia. exact Hnth.
      * intros [Hle' Hnth'].
        destruct (j - k)%nat as [|m] eqn:Em.
        -- cbn in Hnth'. injection Hnth' as ->.
           exfalso. apply Hnotin. eapply nth_error_In; eassumption.
        -- cbn in Hnth'.
           assert (Hj : Schema.index_from (S k) rest name = Some j).
           { apply (IH Hrest). split; [lia|].
             now replace (j - S k)%nat with m by lia. }
           assert (Hj' : Schema.index_from (S k) rest name = Some j').
           { apply (IH Hrest). now split. }
           congruence.
    + split.
      * destruct (String.eqb h name) eqn:Eh; [|discriminate].
        apply String.eqb_eq in Eh. intros H. injection H as <-.
        split; [lia|]. rewrite Nat.sub_diag. now subst.
      * intros [Hle Hnth].
        destruct (j - k)%nat as [|m] eqn:Em.
        -- cbn in Hnth. injection Hnth as ->. rewrite String.eqb_refl.
           f_equal. lia.
        -- cbn in Hnth.
           assert (Hj : Schema.index_from (S k) rest name = Some j).
           { apply (IH Hrest). split; [lia|].
             now replace (j - S k)%nat with m by lia. }
           congruence.
Qed.

(** [INDEX] gives [i] for a name exactly when the name is the header at
    position [i]; a name that is no header has no index. *)
Theorem index_is_position (name : string) (i : nat) :
  Schema.INDEX name = Some i <-> nth_error Schema.REQUIRED_HEADERS i = Some name.
Proof.
  unfold Schema.INDEX. rewrite (index_from_spec _ headers_distinct 0 name i).
  rewrite Nat.sub_0_r. split; [now intros [_ H] | intros H; split; [lia | exact H]].
Qed.

(** ** A run of the receiver *)

Lemma accepted_rows_length (lines : list string) :
  length (accepted_rows lines) = length (accepted_counts lines).
Proof.
  unfold accepted_rows, accepted_counts.
  induction lines as [|l ls IH]; [reflexivity|].
  cbn [flat_map]. rewrite !length_app, IH.
  destruct (Receiver.parse_and_validate l) as [[row n]|e]; reflexivity.
Qed.

Section ReceiverRun.

Context {Clock : Type}.
Implicit Types (st : Receiver.state Clock) (inputs : list (Clock * string)).

Lemma main_run_state st inputs :
  let lines := map snd inputs in
  let st' := Receiver.main_run st inputs in
  Receiver.received st' = Receiver.received st + Z.of_nat (length (accepted_counts lines)) /\
  (Receiver.last_tx_count st', Receiver.lost st')
    = gap_run (Receiver.last_tx_count st, Receiver.lost st) (accepted_counts lines) /\
  Receiver.csv_rows st' = (Receiver.csv_rows st ++ accepted_rows lines)%list.
Proof.
  cbv zeta. revert st.
  induction inputs as [|[now line] inputs IH]; intros st.
  - cbn. rewrite app_nil_r. repeat split; lia.
  - unfold Receiver.main_run in *. cbn [fold_left map snd].
    unfold accepted_counts, accepted_rows in *. cbn [flat_map].
    specialize (IH (fst (Receiver.main_step st now line))).
    destruct IH as (IHr & IHg & IHl).
    destruct (Receiver.parse_and_validate line) as [[row n]|e] eqn:E.
    + destruct (main_step_accepts st now line row n E) as (Hg & Hr & Hl & _).
      rewrite IHr, IHg, IHl, Hr, Hl, Hg. cbn [app length gap_run fold_left].
      rewrite <- app_assoc. repeat split. lia.
    + destruct (main_step_rejects st now line e E) as [Hst _].
      rewrite Hst in *. cbn [app]. repeat split; assumption.
Qed.

(** What a run leaves in the state depends on the accepted lines only:
    [received] grows by their number, [last_tx_count] and [lost] follow the gap
    rule over their packet counts, and their rows are appended to the log in
    arrival order.  Refused and blank lines leave no trace. *)
Theorem main_run_follows_accepted_lines st inputs :
  let lines := map snd inputs in
  let st' := Receiver.main_run st inputs in
  Receiver.received st' = Receiver.received st + Z.of_nat (length (accepted_counts lines)) /\
  (Receiver.last_tx_count st', Receiver.lost st')
    = gap_run (Receiver.last_tx_count st, Receiver.lost st) (accepted_counts lines) /\
  Receiver.csv_rows st' = (Receiver.csv_rows st ++ accepted_rows lines)%list.
Proof. apply main_run_state. Qed.

(** The [lost] counter never goes down. *)
Theorem main_run_lost_never_decreases st inputs :
  Receiver.lost st <= Receiver.lost (Receiver.main_run st inputs).
Proof.
  destruct (main_run_state st inputs) as (_ & Hg & _).
  pose proof (gap_run_monotone (accepted_counts (map snd inputs))
                (Receiver.last_tx_count st, Receiver.lost st)) as Hm.
  rewrite <- Hg in Hm. exact Hm.
Qed.

(** From the start of the program, while the accepted packet counts only go
    up: the packets received and the packets counted lost add up to the span
    of counts from the first to the last one seen. *)
Theorem main_run_accounts_for_every_count (now : Clock) inputs (first : Z) (rest : list Z) :
  accepted_counts (map snd inputs) = first :: rest ->
  (forall a b, In (a, b) (combine (first :: rest) rest) -> a < b) ->
  let st := Receiver.main_run (Receiver.initial now) inputs in
  Receiver.last_tx_count st = Some (last rest first) /\
  Receiver.received st + Receiver.lost st = last rest first - first + 1.
Proof.
  intros Hacc Hinc st.
  destruct (main_run_state (Receiver.initial now) inputs)
    as (Hr & Hg & _).
  fold st in Hr, Hg. rewrite Hacc in Hr, Hg.
  cbn [Receiver.initial Receiver.received Receiver.last_tx_count Receiver.lost] in Hr, Hg.
  unfold gap_run in Hg. cbn [fold_left gap_update] in Hg.
  fold (gap_run (Some first, 0) rest) in Hg.
  rewrite (gap_run_increasing rest first 0 Hinc) in Hg.
  injection Hg as Hl Hlost. split; [assumption|].
  rewrite Hr, Hlost. cbn [length]. lia.
Qed.

(** The log of a run is a table: the header row, then one row of exactly
    [N] cells for every accepted line, in arrival order. *)
Theorem main_run_log_is_rectangular (now : Clock) inputs :
  let st := Receiver.main_run (Receiver.initial now) inputs in
  Receiver.csv_rows st = Schema.REQUIRED_HEADERS :: accepted_rows (map snd inputs) /\
  Z.of_nat (length (Receiver.csv_rows st)) = 1 + Receiver.received st /\
  (forall row, In row (Receiver.csv_rows st) -> length row = N).
Proof.
  intros st.
  destruct (main_run_state (Receiver.initial now) inputs)
    as (Hr & _ & Hl).
  fold st in Hr, Hl. cbn [Receiver.initial Receiver.received Receiver.csv_rows app] in Hr, Hl.
  pose proof (accepted_rows_length (map snd inputs)) as Hlen.
  split; [assumption|]. split.
  - rewrite Hl, Hr. cbn [length]. rewrite Hlen. lia.
  - intros row Hin. rewrite Hl in Hin. destruct Hin as [<-|Hin]; [reflexivity|].
    unfold accepted_rows in Hin. apply in_flat_map in Hin as (line & _ & Hin).
    destruct (Receiver.parse_and_validate line) as [[row' n]|e] eqn:E; [|contradiction].
    destruct Hin as [<-|[]].
    apply parse_ok_iff in E as (Hn & _ & _ & _ & _ & ->).
    rewrite length_firstn. lia.
Qed.

End ReceiverRun.

Lemma main_run_accounts_for_every_count_witness :
  let st := Receiver.main_run (Receiver.initial 0)
              [(1, negative_line); (2, foreign_line); (3, sample_line)] in
  Receiver.last_tx_count st = Some 123 /\
  Receiver.received st + Receiver.lost st = 123 - (-5) + 1.
Proof.
  refine (@main_run_accounts_for_every_count Z 0
            [(1, negative_line); (2, foreign_line); (3, sample_line)] (-5) [123] _ _).
  - reflexivity.
  - intros a b [H|[]]. injection H as <- <-. reflexivity.
Defined.

(** ** The display model over many lines *)

(** A call that does not end with the updated signal leaves the model as it
    was. *)
Lemma rejected_line_unchanged {Clock : Type} (m : Gui.TelemetryModel Clock)
      (now : Clock) (line : string) :
  match snd (Gui.append_csv_line m now line) with
  | Gui.UpdatedSignal _ => True
  | Gui.ErrorSignal _ _ | Gui.ValueErrorRaised _ =>
      fst (Gui.append_csv_line m now line) = m
  end.
Proof.
  rewrite append_csv_line_cases.
  destruct (negb (length (tokens line) =? N)%nat); [reflexivity|].
  cbv zeta.
  destruct (Py.isdigit (field (tokens line) 2));
    [destruct (Py.int (field (tokens line) 2))|]; cbn [fst snd]; auto.
Qed.

Ltac explode_cells parts H :=
  change N with 25%nat in H;
  repeat (destruct parts as [|? parts]; cbn [length] in H;
          [try discriminate H | try discriminate H]).

Section DisplayRun.

Context {Clock : Type}.
Implicit Types (m : Gui.TelemetryModel Clock) (now : Clock) (r : Gui.row Clock)
         (inputs : list (Clock * string)).

Lemma append_lastn m now (line : string) r :
  1 <= Gui.maxlen m ->
  snd (Gui.append_csv_line m now line) = Gui.UpdatedSignal r ->
  Gui.rows (fst (Gui.append_csv_line m now line))
    = lastn (Z.to_nat (Gui.maxlen m)) (Gui.rows m ++ [r]) /\
  Z.of_nat (length (Gui.rows (fst (Gui.append_csv_line m now line)))) <= Gui.maxlen m.
Proof.
  intros Hcap Hout.
  destruct (append_pushes m now line r Hout) as (Hrows & _ & _).
  rewrite Hrows, push_lastn by assumption.
  split; [reflexivity|]. rewrite lastn_length. lia.
Qed.

(** With a positive [maxlen], an accepted line leaves the last [maxlen] of
    the rows held before followed by the new row. *)
Theorem append_keeps_latest_rows m now (line : string) r :
  1 <= Gui.maxlen m ->
  snd (Gui.append_csv_line m now line) = Gui.UpdatedSignal r ->
  Gui.rows (fst (Gui.append_csv_line m now line))
    = lastn (Z.to_nat (Gui.maxlen m)) (Gui.rows m ++ [r]) /\
  Z.of_nat (length (Gui.rows (fst (Gui.append_csv_line m now line)))) <= Gui.maxlen m.
Proof. apply append_lastn. Qed.

(** With a positive [maxlen], whatever lines arrive, the model never holds
    more than [maxlen] rows, and [maxlen] itself never changes. *)
Theorem feed_keeps_bound m inputs :
  1 <= Gui.maxlen m ->
  Z.of_nat (length (Gui.rows m)) <= Gui.maxlen m ->
  Gui.maxlen (Gui.feed m inputs) = Gui.maxlen m /\
  Z.of_nat (length (Gui.rows (Gui.feed m inputs))) <= Gui.maxlen m.
Proof.
  revert m. unfold Gui.feed.
  induction inputs as [|[now line] inputs IH]; intros m Hcap Hlen; cbn [fold_left].
  - split; [reflexivity | assumption].
  - assert (Hstep : Gui.maxlen (fst (Gui.append_csv_line m now line)) = Gui.maxlen m /\
                    Z.of_nat (length (Gui.rows (fst (Gui.append_csv_line m now line))))
                    <= Gui.maxlen m).
    { destruct (snd (Gui.append_csv_line m now line)) as [h w|r|t] eqn:Hout.
      - pose proof (rejected_line_unchanged m now line) as Hsame.
        rewrite Hout in Hsame. rewrite Hsame. now split.
      - destruct (append_pushes m now line r Hout) as (_ & Hmax & _).
        split; [assumption|]. now apply (append_lastn m now line r).
      - pose proof (rejected_line_unchanged m now line) as Hsame.
        rewrite Hout in Hsame. rewrite Hsame. now split. }
    destruct Hstep as [Hmax Hlen'].
    destruct (IH (fst (Gui.append_csv_line m now line))) as [IHmax IHlen];
      rewrite ?Hmax; try assumption.
    split; [rewrite IHmax | rewrite Hmax in IHlen]; assumption.
Qed.

End DisplayRun.

Lemma append_keeps_latest_rows_witness :
  let m := Gui.feed (Gui.init 2) [(1, sample_line); (2, sample_line)] in
  map Gui.t_wall (Gui.rows (fst (Gui.append_csv_line m 3 sample_line))) = [2; 3].
Proof.
  intros m.
  pose proof (@append_keeps_latest_rows Z m 3 sample_line
                (Gui.mkRow (combine Schema.REQUIRED_HEADERS sample_row) 3)
                ltac:(discriminate) eq_refl) as [Hrows _].
  rewrite Hrows. reflexivity.
Defined.

Lemma feed_keeps_bound_witness :
  Z.of_nat (length (Gui.rows
     (Gui.feed (Gui.init 2) [(1, sample_line); (2, foreign_line); (3, sample_line)])))
  <= 2.
Proof.
  refine (proj2 (@feed_keeps_bound Z (Gui.init 2)
                   [(1, sample_line); (2, foreign_line); (3, sample_line)] _ _));
    discriminate.
Defined.

Section DisplayCalls.

Context {Clock : Type}.
Implicit Types (m : Gui.TelemetryModel Clock) (now : Clock) (r : Gui.row Clock)
         (inputs : list (Clock * string)).

(** On ASCII text, as every line received over UDP is, [append_csv_line] can
    only raise on a packet count of more than [int_max_str_digits] digits:
    with a shorter field every call ends with one of its two signals.  (Outside
    ASCII, [str.isdigit] also takes characters that [int] refuses; the
    alphabet of this development leaves them out, hence the hypothesis.) *)
Theorem append_raises_only_on_huge_count m now (line : string) :
  Py.is_ascii line = true ->
  (String.length (field (tokens line) 2) <= Py.int_max_str_digits)%nat ->
  forall text, snd (Gui.append_csv_line m now line) <> Gui.ValueErrorRaised text.
Proof.
  intros _ Hlen text. rewrite append_csv_line_cases.
  destruct (negb (length (tokens line) =? N)%nat); [discriminate|].
  cbv zeta.
  destruct (Py.isdigit (field (tokens line) 2)) eqn:Hd; [|discriminate].
  destruct (int_signed_digits _ Hd Hlen) as (n & _ & Hint & _).
  rewrite Hint. discriminate.
Qed.

(** The packet-count tracking of the display model: a field made of digits
    moves [last_pkt] and [dropped] by the gap rule; any other text (empty,
    signed, not a number) leaves both as they were, and the row is stored all
    the same. *)
Theorem append_tracks_digit_counts_only m now (line : string) r :
  snd (Gui.append_csv_line m now line) = Gui.UpdatedSignal r ->
  let m' := fst (Gui.append_csv_line m now line) in
  let pkt := field (tokens line) 2 in
  (Py.isdigit pkt = true ->
   exists n, Py.int pkt = Some n /\ 0 <= n /\
             (Gui.last_pkt m', Gui.dropped m')
             = gap_update (Gui.last_pkt m, Gui.dropped m) n) /\
  (Py.isdigit pkt = false ->
   Gui.last_pkt m' = Gui.last_pkt m /\ Gui.dropped m' = Gui.dropped m).
Proof.
  cbv zeta. rewrite append_csv_line_cases.
  destruct (negb (length (tokens line) =? N)%nat); [discriminate|].
  cbv zeta.
  destruct (Py.isdigit (field (tokens line) 2)) eqn:Hd.
  - destruct (Py.int (field (tokens line) 2)) as [n|] eqn:Hint; [|discriminate].
    intros _. cbn [fst]. split; [|discriminate]. intros _.
    exists n. split; [reflexivity|]. split.
    + assert (Hall : Py.all_digits (field (tokens line) 2) = true)
        by (destruct (field (tokens line) 2); [discriminate | exact Hd]).
      destruct (scan_all_digits _ Hall 0 0%nat ltac:(lia)) as (v & Hscan & Hv).
      destruct (field (tokens line) 2) as [|c s] eqn:Ef; [discriminate|].
      pose proof Hall as Hc. cbn [Py.all_digits] in Hc.
      apply andb_true_iff in Hc as [Hc _].
      destruct (digit_is_plain c Hc) as (Hsp & Hplus & Hminus & Hus & _).
      unfold Py.int in Hint. cbn [Py.skip_int_space] in Hint.
      rewrite Hsp, Hplus, Hminus in Hint. cbv beta iota zeta in Hint.
      cbn [Py.starts_with_underscore] in Hint. rewrite Hus, Hscan in Hint.
      destruct (Py.int_max_str_digits <? 0 + String.length (String c s))%nat;
        [discriminate|].
      cbn [Nat.add String.length] in Hint. cbn [Py.skip_int_space] in Hint.
      injection Hint as <-. exact Hv.
    + now destruct (gap_update (Gui.last_pkt m, Gui.dropped m) n).
  - intros _. cbn [fst]. split; [discriminate|]. intros _. split; reflexivity.
Qed.

End DisplayCalls.

(** ** Receiver and display side by side *)

Section SideBySide.

Context {Clock : Type}.

(** On lines of exactly [N] tokens that the validator accepts and whose packet
    count is made of digits, the display model and the receiver loop track the
    same thing: starting level, they end with the same last packet count and
    the same number of lost packets. *)
Theorem display_and_receiver_agree
        (m : Gui.TelemetryModel Clock) (st : Receiver.state Clock)
        (inputs : list (Clock * string)) :
  Forall (fun '(_, line) =>
            length (tokens line) = N /\
            Py.isdigit (field (tokens line) 2) = true /\
            exists row n, Receiver.parse_and_validate line = Ok (row, n))
         inputs ->
  (Gui.last_pkt m, Gui.dropped m) = (Receiver.last_tx_count st, Receiver.lost st) ->
  (Gui.last_pkt (Gui.feed m inputs), Gui.dropped (Gui.feed m inputs))
  = (Receiver.last_tx_count (Receiver.main_run st inputs),
     Receiver.lost (Receiver.main_run st inputs)).
Proof.
  revert m st. unfold Gui.feed, Receiver.main_run.
  induction inputs as [|[now line] inputs IH]; intros m st Hall Hsame; cbn [fold_left].
  - exact Hsame.
  - inversion Hall as [|? ? Hhead Hrest]; subst.
    cbn beta iota in Hhead. destruct Hhead as (Hlen & Hd & row & n & Hok).
    apply IH; [assumption|].
    destruct (main_step_accepts st now line row n Hok) as (Hg & _).
    cbv zeta in Hg. rewrite Hg.
    apply parse_ok_iff in Hok as (_ & _ & _ & _ & Hint & _).
    rewrite append_csv_line_cases.
    rewrite Hlen, Nat.eqb_refl. cbn [negb]. cbv zeta. rewrite Hd, Hint. cbn [fst].
    cbn [Gui.last_pkt Gui.dropped]. rewrite Hsame.
    now destruct (gap_update (Receiver.last_tx_count st, Receiver.lost st) n).
Qed.

End SideBySide.

Lemma display_and_receiver_agree_witness :
  let inputs := [(1, sample_line); (2, sample_line)] in
  (Gui.last_pkt (Gui.feed (Gui.init 5) inputs), Gui.dropped (Gui.feed (Gui.init 5) inputs))
  = (Receiver.last_tx_count (Receiver.main_run (Receiver.initial 0) inputs),
     Receiver.lost (Receiver.main_run (Receiver.initial 0) inputs)).
Proof.
  intros inputs.
  refine (@display_and_receiver_agree Z (Gui.init 5) (Receiver.initial 0) inputs _ eq_refl).
  repeat constructor; try reflexivity; exists sample_row, 123; reflexivity.
Defined.

(** Where they part: a negative packet count is tracked by the receiver and
    passed over by the display model. *)
Example negative_count_tracked_by_receiver_only :
  Receiver.last_tx_count (fst (Receiver.main_step (Receiver.initial 0) 1 negative_line))
    = Some (-5) /\
  Gui.last_pkt (fst (Gui.append_csv_line (Gui.init 5) 1 negative_line)) = None /\
  length (Gui.rows (fst (Gui.append_csv_line (Gui.init 5) 1 negative_line))) = 1%nat.
Proof. repeat split; reflexivity. Qed.

(** ** Snapshot and replay *)

Lemma cells_give_tokens_back (parts : list string) :
  length parts = N ->
  map (fun k => match Gui.get k (combine Schema.REQUIRED_HEADERS parts) with
                | Some v => v
                | None => ""
                end) Schema.REQUIRED_HEADERS
  = parts.
Proof.
  intros H. explode_cells parts H. reflexivity.
Qed.

Section Snapshot.

Context {Clock : Type}.
Implicit Types (m : Gui.TelemetryModel Clock) (now : Clock) (r : Gui.row Clock).

Lemma snapshot_row_tokens m now (line : string) r :
  snd (Gui.append_csv_line m now line) = Gui.UpdatedSignal r ->
  Gui.snapshot_row r = tokens line /\
  Py.join "," (Gui.snapshot_row r) = Py.strip line.
Proof.
  intros Hout.
  assert (Hlen : length (tokens line) = N).
  { revert Hout. rewrite append_csv_line_cases.
    destruct (length (tokens line) =? N)%nat eqn:E; cbn [negb snd].
    - intros _. now apply Nat.eqb_eq.
    - discriminate. }
  destruct (append_pushes m now line r Hout) as (_ & _ & ->).
  unfold Gui.snapshot_row. cbn [Gui.cells].
  rewrite (cells_give_tokens_back _ Hlen).
  split; [reflexivity|]. unfold tokens. apply join_split.
Qed.

(** The snapshot row of a stored line is the list of its tokens: zipping the
    tokens with the headers and reading every header back loses nothing, and
    joined with commas it is the line without its surrounding blanks. *)
Theorem snapshot_row_gives_tokens_back m now (line : string) r :
  snd (Gui.append_csv_line m now line) = Gui.UpdatedSignal r ->
  Gui.snapshot_row r = tokens line /\
  Py.join "," (Gui.snapshot_row r) = Py.strip line.
Proof. apply snapshot_row_tokens. Qed.

(** A line replayed from a snapshot rebuilds the row it came from: fed to any
    model, the comma-join of a stored row's snapshot is accepted and gives a
    row with the same cells. *)
Theorem replayed_snapshot_row_is_restored m now (line : string) r
        (m2 : Gui.TelemetryModel Clock) (now2 : Clock) :
  snd (Gui.append_csv_line m now line) = Gui.UpdatedSignal r ->
  exists r2,
    snd (Gui.append_csv_line m2 now2 (Py.join "," (Gui.snapshot_row r)))
      = Gui.UpdatedSignal r2 /\
    Gui.cells r2 = Gui.cells r.
Proof.
  intros Hout.
  destruct (snapshot_row_tokens m now line r Hout) as [_ Hjoin].
  rewrite Hjoin.
  assert (Htok : tokens (Py.strip line) = tokens line)
    by (unfold tokens; now rewrite strip_idempotent).
  destruct (append_pushes m now line r Hout) as (_ & _ & Hr).
  destruct (snd (Gui.append_csv_line m2 now2 (Py.strip line))) as [h w|r2|t] eqn:E2.
  - exfalso. revert E2 Hout. rewrite !append_csv_line_cases, Htok.
    destruct (negb (length (tokens line) =? N)%nat); [discriminate|].
    cbv zeta.
    destruct (Py.isdigit (field (tokens line) 2));
      [destruct (Py.int (field (tokens line) 2))|]; discriminate.
  - exists r2. split; [reflexivity|].
    destruct (append_pushes m2 now2 (Py.strip line) r2 E2) as (_ & _ & ->).
    rewrite Htok, Hr. reflexivity.
  - exfalso. revert E2 Hout. rewrite !append_csv_line_cases, Htok.
    destruct (negb (length (tokens line) =? N)%nat); [discriminate|].
    cbv zeta.
    destruct (Py.isdigit (field (tokens line) 2));
      [destruct (Py.int (field (tokens line) 2))|]; discriminate.
Qed.

(** Replaying the rows a snapshot writes: the header is accepted, and while
    the replay is not stopped one line is emitted per stored row, in order,
    the comma-join of its cells. *)
Theorem replay_of_snapshot m (stop : nat -> bool) :
  (forall i, stop i = false) ->
  Gui.replay_loop (Some (Gui.save_snapshot m)) stop
  = map (fun r => Gui.Line (Py.join "," (Gui.snapshot_row r))) (Gui.rows m).
Proof.
  intros Hs. unfold Gui.replay_loop, Gui.save_snapshot. cbn [hd_error tl].
  assert (Hh : Gui.header_matches (Some Schema.REQUIRED_HEADERS) = true)
    by now apply header_matches_iff.
  rewrite Hh. cbn [negb].
  rewrite (replay_rows_unstopped stop _ Hs 0), map_map. reflexivity.
Qed.

End Snapshot.

Lemma append_raises_only_on_huge_count_witness :
  snd (Gui.append_csv_line (Gui.init 5) 1 sample_line) <> Gui.ValueErrorRaised "123".
Proof.
  apply (@append_raises_only_on_huge_count Z (Gui.init 5) 1 sample_line).
  - reflexivity.
  - apply Nat.leb_le. reflexivity.
Defined.

Lemma append_tracks_digit_counts_only_witness :
  let m := Gui.mkModel [] 5 (Some 120) 0 in
  Gui.last_pkt (fst (Gui.append_csv_line m 1 negative_line)) = Some 120 /\
  Gui.dropped (fst (Gui.append_csv_line m 1 negative_line)) = 0.
Proof.
  intros m.
  refine (proj2 (@append_tracks_digit_counts_only Z m 1 negative_line
                   (Gui.mkRow (combine Schema.REQUIRED_HEADERS (tokens negative_line)) 1)
                   eq_refl) eq_refl).
Defined.

Lemma snapshot_row_gives_tokens_back_witness :
  Gui.snapshot_row (Gui.mkRow (combine Schema.REQUIRED_HEADERS sample_row) 1) = sample_row.
Proof.
  exact (proj1 (@snapshot_row_gives_tokens_back Z (Gui.init 5) 1 sample_line
                  (Gui.mkRow (combine Schema.REQUIRED_HEADERS sample_row) 1) eq_refl)).
Defined.

Lemma replayed_snapshot_row_is_restored_witness :
  exists r2 : Gui.row Z,
    snd (Gui.append_csv_line (Gui.init 3) 9
           (Py.join "," (Gui.snapshot_row
                           (Gui.mkRow (combine Schema.REQUIRED_HEADERS sample_row) 1))))
      = Gui.UpdatedSignal r2 /\
    Gui.cells r2 = combine Schema.REQUIRED_HEADERS sample_row.
Proof.
  exact (@replayed_snapshot_row_is_restored Z (Gui.init 5) 1 sample_line
           (Gui.mkRow (combine Schema.REQUIRED_HEADERS sample_row) 1)
           (Gui.init 3) 9 eq_refl).
Defined.

Lemma replay_of_snapshot_witness :
  Gui.replay_loop
    (Some (Gui.save_snapshot (Gui.feed (Gui.init 5) [(1, sample_line); (2, negative_line)])))
    (fun _ => false)
  = [Gui.Line sample_line; Gui.Line negative_line].
Proof.
  exact (@replay_of_snapshot Z
           (Gui.feed (Gui.init 5) [(1, sample_line); (2, negative_line)])
           (fun _ => false) (fun _ => eq_refl)).
Defined.

(** ** [MainWindow.on_udp_line] *)

Section Window.

Context {Clock : Type}.
Implicit Types (w : Gui.MainWindow Clock) (t_recv t_row : Clock).

(** While logging, the log and the model move together: a line the model
    stores is written to the log, as the cells of the stored row; a line the
    model refuses is not written. *)
Theorem on_udp_line_logs_what_is_stored w t_recv t_row (line addr : string)
        (written : list (list string)) :
  Gui.logging w = true ->
  Gui.log_writer w = Some written ->
  let w' := fst (Gui.on_udp_line w t_recv t_row line addr) in
  match snd (Gui.on_udp_line w t_recv t_row line addr) with
  | Gui.UpdatedSignal r =>
      Gui.log_writer w' = Some (written ++ [Gui.snapshot_row r])%list /\
      Gui.model w' = fst (Gui.append_csv_line (Gui.model w) t_row line)
  | Gui.ErrorSignal _ _ | Gui.ValueErrorRaised _ =>
      Gui.log_writer w' = Some written /\ Gui.model w' = Gui.model w
  end.
Proof.
  intros Hlog Hwr. cbv zeta. unfold Gui.on_udp_line.
  pose proof (rejected_line_unchanged (Gui.model w) t_row line) as Hrej.
  pose proof (snapshot_row_tokens (Gui.model w) t_row line) as Hsnap.
  pose proof (append_csv_line_cases (Gui.model w) t_row line) as Hcases.
  destruct (Gui.append_csv_line (Gui.model w) t_row line) as [m' out] eqn:E.
  cbn [fst snd] in *.
  destruct out as [h k|r|t]; cbn [fst snd Gui.log_writer Gui.model];
    rewrite ?Hwr, ?Hlog.
  - fold (tokens line). fold N.
    destruct (length (tokens line) =? N)%nat eqn:El; cbn [negb] in Hcases.
    + exfalso. cbv zeta in Hcases.
      destruct (Py.isdigit (field (tokens line) 2));
        [destruct (Py.int (field (tokens line) 2))|]; discriminate.
    + now split.
  - destruct (Hsnap r eq_refl) as [Htok _]. rewrite Htok.
    fold (tokens line). fold N.
    destruct (length (tokens line) =? N)%nat eqn:El; cbn [negb] in Hcases.
    + now split.
    + discriminate.
  - now split.
Qed.

(** Every datagram is counted and its sender noted, stored or not, and the
    list of reception times never holds more than 2000 entries. *)
Theorem on_udp_line_counts_every_datagram w t_recv t_row (line addr : string) :
  let w' := fst (Gui.on_udp_line w t_recv t_row line addr) in
  Gui.packet_count w' = Gui.packet_count w + 1 /\
  Gui.last_sender w' = addr /\
  Z.of_nat (length (Gui.recv_times w')) <= 2000 /\
  Gui.logging w' = Gui.logging w.
Proof.
  cbv zeta. unfold Gui.on_udp_line.
  destruct (Gui.append_csv_line (Gui.model w) t_row line) as [m' out].
  assert (Hb : Z.of_nat (length
             (if 2000 <? Z.of_nat (length (Gui.recv_times w ++ [t_recv]))
              then Py.slice_from (- 2000) (Gui.recv_times w ++ [t_recv])
              else (Gui.recv_times w ++ [t_recv])%list)) <= 2000).
  { destruct (2000 <? Z.of_nat (length (Gui.recv_times w ++ [t_recv]))) eqn:E.
    - pose proof (slice_from_neg (Gui.recv_times w ++ [t_recv]) 2000 ltac:(lia)) as Hs.
      cbn [Z.opp] in Hs. rewrite Hs, lastn_length. lia.
    - apply Z.ltb_ge in E. exact E. }
  destruct out; cbn [fst Gui.packet_count Gui.last_sender Gui.recv_times Gui.logging];
    repeat split; exact Hb.
Qed.

End Window.

Lemma on_udp_line_logs_what_is_stored_witness :
  let w := Gui.mkWindow (Gui.init 5) [] 0 "" true (Some [Schema.REQUIRED_HEADERS]) in
  Gui.log_writer (fst (Gui.on_udp_line w 1 1 sample_line "127.0.0.1:5000"))
  = Some [Schema.REQUIRED_HEADERS; sample_row].
Proof.
  intros w.
  exact (proj1 (@on_udp_line_logs_what_is_stored Z w 1 1 sample_line "127.0.0.1:5000"
                  [Schema.REQUIRED_HEADERS] eq_refl eq_refl)).
Defined.

(** ** What the sockets hand over *)

Lemma decode_is_ascii (data : list Byte.byte) :
  Py.is_ascii (Py.decode_ascii_ignore data) = true.
Proof.
  unfold Py.decode_ascii_ignore.
  induction data as [|b data IH]; cbn [map filter]; [reflexivity|].
  destruct (Py.code (ascii_of_byte b) <? 128)%N eqn:E; [|exact IH].
  cbn [string_of_list_ascii Py.is_ascii]. now rewrite E.
Qed.

Lemma lstrip_is_ascii (s : string) :
  Py.is_ascii s = true -> Py.is_ascii (Py.lstrip s) = true.
Proof.
  induction s as [|c s IH]; cbn [Py.lstrip Py.is_ascii]; intros H; [reflexivity|].
  apply andb_true_iff in H as [Hc Hs].
  destruct (Py.isspace c); [now apply IH|].
  cbn [Py.is_ascii]. now rewrite Hc, Hs.
Qed.

Lemma rstrip_is_ascii (s : string) :
  Py.is_ascii s = true -> Py.is_ascii (Py.rstrip s) = true.
Proof.
  induction s as [|c s IH]; cbn [Py.rstrip Py.is_ascii]; intros H; [reflexivity|].
  apply andb_true_iff in H as [Hc Hs]. specialize (IH Hs).
  destruct (Py.rstrip s) as [|d r].
  - destruct (Py.isspace c); [reflexivity|]. cbn [Py.is_ascii]. now rewrite Hc.
  - cbn [Py.is_ascii] in *. now rewrite Hc, IH.
Qed.

(** A line that [UdpReceiver._loop] emits is never empty, has no blank at
    either end, and holds ASCII characters only, whatever bytes the datagram
    carried. *)
Theorem rx_line_is_clean (data : list Byte.byte) (line : string) :
  Gui.rx_line data = Some line ->
  line <> "" /\ Py.strip line = line /\ Py.is_ascii line = true.
Proof.
  unfold Gui.rx_line.
  destruct (String.eqb (Py.strip (Py.decode_ascii_ignore data)) "") eqn:E;
    [discriminate|].
  intros H. injection H as <-. apply String.eqb_neq in E.
  split; [assumption|]. split; [apply strip_idempotent|].
  unfold Py.strip. apply rstrip_is_ascii, lstrip_is_ascii, decode_is_ascii.
Qed.

Lemma rx_line_is_clean_witness :
  Gui.rx_line [Byte.x20; Byte.x31; Byte.xff; Byte.x2c; Byte.x32; Byte.x0a] = Some "1,2" /\
  Py.strip "1,2" = "1,2".
Proof.
  split; [reflexivity|].
  exact (proj1 (proj2 (rx_line_is_clean
           [Byte.x20; Byte.x31; Byte.xff; Byte.x2c; Byte.x32; Byte.x0a] "1,2" eq_refl))).
Defined.

(** ** More on [format_cmd] *)

Lemma upper_char_facts (c : ascii) :
  Py.upper_char (Py.upper_char c) = Py.upper_char c /\
  Py.is_digit (Py.upper_char c) = Py.is_digit c /\
  (Py.is_digit c = true -> Py.upper_char c = c) /\
  Py.isspace (Py.upper_char c) = Py.isspace c.
Proof.
  destruct c as [b0 b1 b2 b3 b4 b5 b6 b7].
  destruct b0, b1, b2, b3, b4, b5, b6, b7; cbv; repeat split; congruence.
Qed.

Lemma upper_idempotent (s : string) : Py.upper (Py.upper s) = Py.upper s.
Proof.
  induction s as [|c s IH]; cbn [Py.upper]; [reflexivity|].
  now rewrite IH, (proj1 (upper_char_facts c)).
Qed.

Lemma upper_all_digits (s : string) :
  Py.all_digits (Py.upper s) = Py.all_digits s /\
  (Py.all_digits s = true -> Py.upper s = s).
Proof.
  induction s as [|c s [IH1 IH2]]; cbn [Py.upper Py.all_digits]; [now split|].
  destruct (upper_char_facts c) as (_ & Hd & Hfix & _).
  rewrite Hd, IH1. split; [reflexivity|].
  intros H. apply andb_true_iff in H as [Hc Hs]. now rewrite (Hfix Hc), (IH2 Hs).
Qed.

Lemma upper_isdigit (s : string) :
  Py.isdigit (Py.upper s) = Py.isdigit s /\
  (Py.isdigit s = true -> Py.upper s = s).
Proof.
  destruct s as [|c s]; [now split|].
  unfold Py.isdigit. cbn [Py.upper].
  pose proof (upper_all_digits (String c s)) as [H1 H2]. cbn [Py.upper] in H1, H2.
  now split.
Qed.

Lemma upper_has_space (s : string) : Py.has_space (Py.upper s) = Py.has_space s.
Proof.
  induction s as [|c s IH]; cbn [Py.upper Py.has_space]; [reflexivity|].
  destruct (upper_char_facts c) as (_ & _ & _ & Hsp). now rewrite Hsp, IH.
Qed.

(** Letter case plays no part in a command: the tokens upper-cased give the
    same wire text, or the same error. *)
Lemma format_cmd_upper (parts : list string) :
  CmdSender.format_cmd (map Py.upper parts) = CmdSender.format_cmd parts.
Proof.
  destruct parts as [|p0 args]; [reflexivity|].
  unfold CmdSender.format_cmd. cbn [map]. rewrite upper_idempotent.
  destruct (String.eqb (Py.upper p0) "CAL"); [reflexivity|].
  destruct args as [|a [|b [|c rest]]]; cbn [map]; rewrite ?upper_idempotent;
    try reflexivity.
  destruct (String.eqb (Py.upper p0) "CX"); [reflexivity|].
  destruct (String.eqb (Py.upper p0) "ST"); [reflexivity|].
  destruct (String.eqb (Py.upper p0) "SIM"); [reflexivity|].
  destruct (String.eqb (Py.upper p0) "SIMP"); [|reflexivity].
  destruct (upper_isdigit a) as [Hd Hfix]. rewrite Hd.
  destruct (Py.isdigit a); [now rewrite Hfix | reflexivity].
Qed.

(** [format_cmd] is blind to letter case in every token: with all tokens
    upper-cased it returns the same wire text, or raises the same error. *)
Theorem format_cmd_ignores_case (parts : list string) :
  CmdSender.format_cmd (map Py.upper parts) = CmdSender.format_cmd parts.
Proof. exact (format_cmd_upper parts). Qed.

Lemma cmd_split (tail : string) :
  Py.split "," (CmdSender.cmd tail) = "CMD" :: Config.TEAM_ID :: Py.split "," tail.
Proof.
  unfold CmdSender.cmd.
  change ("CMD," ++ Config.TEAM_ID ++ "," ++ tail)
    with ("CMD" ++ String "," ("1000" ++ String "," tail)).
  rewrite split_app_sep by reflexivity.
  rewrite split_app_sep by reflexivity.
  reflexivity.
Qed.

Lemma upper_split_one (a : string) :
  Py.contains "," a = false -> Py.split "," (Py.upper a) = [Py.upper a].
Proof.
  intros H. apply split_no_sep. now rewrite upper_keeps_commas.
Qed.

Ltac split_prefix name rest :=
  let H := fresh in
  assert (H : Py.split "," (name ++ String "," rest) = name :: Py.split "," rest)
    by (apply split_app_sep; reflexivity);
  cbn [append] in H |- *; rewrite H; clear H.

(** The wire text of an accepted command, split at its commas, is CMD, the
    team identifier, the upper-cased name and the upper-cased arguments, none
    for CAL, provided no argument holds a comma. *)
Theorem format_cmd_wire_fields (p0 : string) (args : list string) (wire : string) :
  CmdSender.format_cmd (p0 :: args) = Ok wire ->
  comma_free args = true ->
  Py.split "," wire
  = "CMD" :: Config.TEAM_ID :: Py.upper p0
      :: (if String.eqb (Py.upper p0) "CAL" then [] else map Py.upper args).
Proof.
  unfold CmdSender.format_cmd, comma_free.
  destruct (String.eqb (Py.upper p0) "CAL") eqn:Ecal.
  { apply String.eqb_eq in Ecal. intros H _. injection H as <-.
    rewrite cmd_split, Ecal. reflexivity. }
  destruct (String.eqb (Py.upper p0) "CX") eqn:Ecx.
  { apply String.eqb_eq in Ecx. rewrite Ecx.
    destruct args as [|a [|b rest]]; try discriminate.
    destruct (Py.mem (Py.upper a) ["ON"; "OFF"]); [|discriminate].
    intros H Hfree. injection H as <-. cbn [forallb] in Hfree.
    rewrite andb_true_r in Hfree. apply negb_true_iff in Hfree.
    rewrite cmd_split.
    split_prefix "CX" (Py.upper a). now rewrite (upper_split_one a Hfree). }
  destruct (String.eqb (Py.upper p0) "ST") eqn:Est.
  { apply String.eqb_eq in Est. rewrite Est.
    destruct args as [|a [|b rest]]; try discriminate.
    intros H Hfree. cbn [forallb] in Hfree.
    rewrite andb_true_r in Hfree. apply negb_true_iff in Hfree.
    destruct (String.eqb (Py.upper a) "GPS") eqn:Egps.
    - apply String.eqb_eq in Egps. injection H as <-.
      rewrite cmd_split. cbn [map]. rewrite Egps. reflexivity.
    - match type of H with (if ?b then _ else _) = _ => destruct b end;
        [|discriminate].
      injection H as <-. rewrite cmd_split.
      split_prefix "ST" (Py.upper a). now rewrite (upper_split_one a Hfree). }
  destruct (String.eqb (Py.upper p0) "SIM") eqn:Esim.
  { apply String.eqb_eq in Esim. rewrite Esim.
    destruct args as [|a [|b rest]]; try discriminate.
    destruct (Py.mem (Py.upper a) ["ENABLE"; "ACTIVATE"; "DISABLE"]); [|discriminate].
    intros H Hfree. injection H as <-. cbn [forallb] in Hfree.
    rewrite andb_true_r in Hfree. apply negb_true_iff in Hfree.
    rewrite cmd_split.
    split_prefix "SIM" (Py.upper a). now rewrite (upper_split_one a Hfree). }
  destruct (String.eqb (Py.upper p0) "SIMP") eqn:Esimp.
  { apply String.eqb_eq in Esimp. rewrite Esimp.
    destruct args as [|a [|b rest]]; try discriminate.
    destruct (Py.isdigit a) eqn:Hd; [|discriminate].
    intros H Hfree. injection H as <-. cbn [forallb] in Hfree.
    rewrite andb_true_r in Hfree. apply negb_true_iff in Hfree.
    rewrite cmd_split.
    split_prefix "SIMP" (a).
    rewrite (split_no_sep "," a Hfree). cbn [map].
    now rewrite (proj2 (upper_isdigit a) Hd). }
  destruct (String.eqb (Py.upper p0) "MEC") eqn:Emec; [|discriminate].
  apply String.eqb_eq in Emec. rewrite Emec.
  destruct args as [|d [|a [|c rest]]]; try discriminate.
  destruct (Py.mem (Py.upper a) ["ON"; "OFF"]); [|discriminate].
  destruct (Py.contains "," (Py.upper d)) eqn:Hdev; [discriminate|].
  intros H Hfree. injection H as <-. cbn [forallb] in Hfree.
  rewrite andb_true_r in Hfree. apply andb_true_iff in Hfree as [_ Ha].
  apply negb_true_iff in Ha.
  rewrite cmd_split.
  split_prefix "MEC" (Py.upper d ++ String "," (Py.upper a)).
  rewrite (split_app_sep "," (Py.upper d) _ Hdev).
  now rewrite (upper_split_one a Ha).
Qed.

Lemma format_cmd_wire_fields_witness :
  Py.split "," "CMD,1000,MEC,SERVO1,ON" = ["CMD"; "1000"; "MEC"; "SERVO1"; "ON"].
Proof.
  exact (format_cmd_wire_fields "mec" ["servo1"; "on"] "CMD,1000,MEC,SERVO1,ON"
           eq_refl eq_refl).
Defined.

(** ST does not look for commas: an eight-character argument with colons in
    place is sent as it is, and the wire text then has one field too many. *)
Example format_st_with_comma :
  CmdSender.format_cmd ["ST"; "1,:22:33"] = Ok "CMD,1000,ST,1,:22:33" /\
  length (Py.split "," "CMD,1000,ST,1,:22:33") = 5%nat.
Proof. split; reflexivity. Qed.

(** ** The loop of [cmd_sender_udp.main] *)

Lemma has_space_app (a b : string) :
  Py.has_space (a ++ b) = Py.has_space a || Py.has_space b.
Proof.
  induction a as [|c a IH]; cbn [append Py.has_space]; [reflexivity|].
  now rewrite IH, orb_assoc.
Qed.

(** The tokens of [split()] are never empty and hold no blank. *)
Lemma split_ws_tokens (s : string) :
  Forall (fun t => t <> "" /\ Py.has_space t = false) (Py.split_ws s).
Proof.
  induction s as [|c s IH]; cbn [Py.split_ws]; [constructor|].
  destruct (Py.isspace c) eqn:Hc; [assumption|].
  assert (Hone : "" <> String c "" /\ Py.has_space (String c "") = false)
    by (split; [discriminate | cbn [Py.has_space]; now rewrite Hc]).
  destruct s as [|d s'].
  - constructor; [|constructor]. split; [discriminate | apply Hone].
  - destruct (Py.isspace d) eqn:Hd.
    + constructor; [|assumption]. split; [discriminate | apply Hone].
    + destruct (Py.split_ws (String d s')) as [|h t].
      * constructor; [|constructor]. split; [discriminate | apply Hone].
      * inversion IH as [|? ? [_ Hh] Ht]; subst.
        constructor; [|assumption]. split; [discriminate|].
        cbn [Py.has_space]. now rewrite Hc, Hh.
Qed.

Lemma format_cmd_never_empty_input (p0 : string) (args : list string) :
  CmdSender.format_cmd (p0 :: args) <> Raise "Empty input".
Proof.
  unfold CmdSender.format_cmd.
  destruct (String.eqb (Py.upper p0) "CAL"); [discriminate|].
  destruct (String.eqb (Py.upper p0) "CX").
  { destruct args as [|a [|b rest]]; try discriminate.
    destruct (Py.mem (Py.upper a) ["ON"; "OFF"]); discriminate. }
  destruct (String.eqb (Py.upper p0) "ST").
  { destruct args as [|a [|b rest]]; try discriminate.
    destruct (String.eqb (Py.upper a) "GPS"); [discriminate|].
    match goal with |- (if ?b then _ else _) <> _ => destruct b end; discriminate. }
  destruct (String.eqb (Py.upper p0) "SIM").
  { destruct args as [|a [|b rest]]; try discriminate.
    destruct (Py.mem (Py.upper a) ["ENABLE"; "ACTIVATE"; "DISABLE"]); discriminate. }
  destruct (String.eqb (Py.upper p0) "SIMP").
  { destruct args as [|a [|b rest]]; try discriminate.
    destruct (Py.isdigit a); discriminate. }
  destruct (String.eqb (Py.upper p0) "MEC").
  { destruct args as [|d [|a [|c rest]]]; try discriminate.
    destruct (Py.mem (Py.upper a) ["ON"; "OFF"]); [|discriminate].
    destruct (Py.contains "," (Py.upper d)); discriminate. }
  intros H. injection H as H. discriminate H.
Qed.

(** A wire text built from tokens without blanks has no blank. *)
Lemma format_cmd_no_blank (parts : list string) (wire : string) :
  CmdSender.format_cmd parts = Ok wire ->
  Forall (fun t => t <> "" /\ Py.has_space t = false) parts ->
  Py.has_space wire = false.
Proof.
  destruct parts as [|p0 args]; [discriminate|].
  unfold CmdSender.format_cmd. intros H Hall.
  inversion Hall as [|? ? _ Hargs]; subst. clear Hall.
  destruct (String.eqb (Py.upper p0) "CAL").
  { injection H as <-. reflexivity. }
  destruct (String.eqb (Py.upper p0) "CX").
  { destruct args as [|a [|b rest]]; try discriminate.
    destruct (Py.mem (Py.upper a) ["ON"; "OFF"]); [|discriminate].
    injection H as <-. inversion Hargs as [|? ? [_ Ha] _]; subst.
    change (Py.has_space (Py.upper a) = false). now rewrite upper_has_space. }
  destruct (String.eqb (Py.upper p0) "ST").
  { destruct args as [|a [|b rest]]; try discriminate.
    inversion Hargs as [|? ? [_ Ha] _]; subst.
    destruct (String.eqb (Py.upper a) "GPS"); [injection H as <-; reflexivity|].
    match type of H with (if ?b then _ else _) = _ => destruct b end; [|discriminate].
    injection H as <-.
    change (Py.has_space (Py.upper a) = false). now rewrite upper_has_space. }
  destruct (String.eqb (Py.upper p0) "SIM").
  { destruct args as [|a [|b rest]]; try discriminate.
    destruct (Py.mem (Py.upper a) ["ENABLE"; "ACTIVATE"; "DISABLE"]); [|discriminate].
    injection H as <-. inversion Hargs as [|? ? [_ Ha] _]; subst.
    change (Py.has_space (Py.upper a) = false). now rewrite upper_has_space. }
  destruct (String.eqb (Py.upper p0) "SIMP").
  { destruct args as [|a [|b rest]]; try discriminate.
    destruct (Py.isdigit a); [|discriminate].
    injection H as <-. inversion Hargs as [|? ? [_ Ha] _]; subst.
    exact Ha. }
  destruct (String.eqb (Py.upper p0) "MEC"); [|discriminate].
  destruct args as [|d [|a [|c rest]]]; try discriminate.
  destruct (Py.mem (Py.upper a) ["ON"; "OFF"]); [|discriminate].
  destruct (Py.contains "," (Py.upper d)); [discriminate|].
  injection H as <-.
  inversion Hargs as [|? ? [_ Hd] Hrest]; subst.
  inversion Hrest as [|? ? [_ Ha] _]; subst.
  change (Py.has_space (Py.upper d ++ String "," (Py.upper a)) = false).
  rewrite has_space_app. cbn [Py.has_space].
  rewrite !upper_has_space, Hd, Ha. reflexivity.
Qed.

(** One line typed at the command prompt: a blank line does nothing;
    [format_cmd] never gets an empty list, so its empty-input error is never
    shown; and a wire text handed to the sender is the one shown and holds no
    blank of any kind. *)
Theorem main_step_sends_clean_text (raw : string) :
  (Py.strip raw = "" -> CmdSender.main_step raw = ([], None)) /\
  ~ In (CmdSender.SaidError "Empty input") (fst (CmdSender.main_step raw)) /\
  (forall wire, snd (CmdSender.main_step raw) = Some wire ->
     fst (CmdSender.main_step raw) = [CmdSender.SaidCommand wire] /\
     Py.has_space wire = false).
Proof.
  unfold CmdSender.main_step.
  pose proof (split_ws_tokens (Py.strip raw)) as Htok.
  split; [intros ->; reflexivity|].
  destruct (Py.split_ws (Py.strip raw)) as [|p0 args] eqn:E.
  - split; [intros []|discriminate].
  - pose proof (format_cmd_never_empty_input p0 args) as Hne.
    pose proof (format_cmd_no_blank (p0 :: args)) as Hnb.
    destruct (CmdSender.format_cmd (p0 :: args)) as [w|e]; cbn [fst snd].
    + split; [intros [H|[]]; discriminate|].
      intros wire H. injection H as <-. split; [reflexivity|].
      now apply (Hnb w).
    + split; [|discriminate].
      intros [H|[]]. injection H as ->. now apply Hne.
Qed.

Lemma main_step_sends_clean_text_witness :
  CmdSender.main_step "  mec  servo1 on " = 
    ([CmdSender.SaidCommand "CMD,1000,MEC,SERVO1,ON"], Some "CMD,1000,MEC,SERVO1,ON") /\
  Py.has_space "CMD,1000,MEC,SERVO1,ON" = false.
Proof.
  split; [reflexivity|].
  exact (proj2 (proj2 (proj2 (main_step_sends_clean_text "  mec  servo1 on "))
                  "CMD,1000,MEC,SERVO1,ON" eq_refl)).
Defined.

(** ** Stopping a replay *)

Lemma replay_rows_prefix (stop : nat -> bool) (data : list (list string)) (i : nat) :
  exists k : nat,
    (k <= length data)%nat /\
    Gui.replay_rows stop i data
    = firstn k (map (fun r => Gui.Line (Py.join "," r)) data).
Proof.
  revert i. induction data as [|r data IH]; intros i; cbn [Gui.replay_rows].
  - exists 0%nat. split; [lia | reflexivity].
  - destruct (stop i).
    + exists 0%nat. split; [cbn; lia | reflexivity].
    + destruct (IH (S i)) as (k & Hk & ->).
      exists (S k). split; [cbn [length]; lia | reflexivity].
Qed.

(** Whenever the stop flag is raised, a replay of a file with the right
    header has emitted a beginning of the data rows, each joined with commas:
    no row is skipped, repeated or reordered, and no status is emitted. *)
Theorem replay_emits_a_prefix (rdr : list (list string)) (stop : nat -> bool) :
  hd_error rdr = Some Schema.REQUIRED_HEADERS ->
  exists k : nat,
    (k <= length (tl rdr))%nat /\
    Gui.replay_loop (Some rdr) stop
    = firstn k (map (fun r => Gui.Line (Py.join "," r)) (tl rdr)).
Proof.
  intros Hh. unfold Gui.replay_loop.
  rewrite (proj2 (header_matches_iff _) Hh). cbn [negb].
  apply replay_rows_prefix.
Qed.

Lemma replay_emits_a_prefix_witness :
  exists k : nat,
    (k <= 2)%nat /\
    Gui.replay_loop (Some [Schema.REQUIRED_HEADERS; sample_row; sample_row])
                    (fun i => Nat.eqb i 1)
    = firstn k [Gui.Line sample_line; Gui.Line sample_line].
Proof.
  exact (replay_emits_a_prefix [Schema.REQUIRED_HEADERS; sample_row; sample_row]
           (fun i => Nat.eqb i 1) eq_refl).
Defined.

(** ** [str] and [int] *)

Lemma digit_char_value (n : Z) :
  0 <= n < 10 ->
  Py.digit_value (ascii_of_N (48 + Z.to_N n)) = Some n /\
  Py.is_digit (ascii_of_N (48 + Z.to_N n)) = true.
Proof.
  intros H. rewrite <- (Z2Nat.id n) by lia.
  assert (Hk : (Z.to_nat n < 10)%nat) by lia.
  revert Hk. generalize (Z.to_nat n) as k. intros k Hk.
  do 10 (destruct k as [|k]; [split; reflexivity|]). lia.
Qed.

(** Scanning the digits [digits_of] wrote in front of [acc] amounts to
    scanning [acc] from the value [n], with as many digits more as were
    written. *)
Lemma scan_digits_of (f : nat) :
  forall (n : Z) (acc : string) (nd : nat),
    0 <= n < 2 ^ Z.of_nat (S f) ->
    exists k : nat,
      (1 <= k <= S f)%nat /\
      String.length (Py.digits_of (S f) n acc) = (k + String.length acc)%nat /\
      Py.all_digits (Py.digits_of (S f) n acc) = Py.all_digits acc /\
      Py.scan_digits (Py.digits_of (S f) n acc) false 0 nd
      = Py.scan_digits acc false n (nd + k).
Proof.
  induction f as [|f IH]; intros n acc nd Hn.
  - assert (Hlt : n < 10) by (change (2 ^ Z.of_nat 1) with 2 in Hn; lia).
    cbn [Py.digits_of]. rewrite (proj2 (Z.ltb_lt _ _) Hlt).
    rewrite Z.mod_small by lia.
    destruct (digit_char_value n ltac:(lia)) as [Hv Hd].
    exists 1%nat. split; [lia|]. split; [reflexivity|].
    cbn [Py.all_digits Py.scan_digits]. rewrite Hv, Hd.
    split; [reflexivity|].
    replace (10 * 0 + n) with n by lia. now rewrite Nat.add_1_r.
  - change (Py.digits_of (S (S f)) n acc)
      with (let acc' := String (ascii_of_N (48 + Z.to_N (n mod 10))) acc in
            if n <? 10 then acc' else Py.digits_of (S f) (n / 10) acc').
    cbv zeta.
    assert (Hm : 0 <= n mod 10 < 10) by (apply Z.mod_pos_bound; lia).
    destruct (digit_char_value (n mod 10) Hm) as [Hv Hd].
    destruct (n <? 10) eqn:E.
    + apply Z.ltb_lt in E. rewrite Z.mod_small in * by lia.
      exists 1%nat. split; [lia|]. split; [reflexivity|].
      cbn [Py.all_digits Py.scan_digits]. rewrite Hv, Hd.
      split; [reflexivity|].
      replace (10 * 0 + n) with n by lia. now rewrite Nat.add_1_r.
    + apply Z.ltb_ge in E.
      assert (Hdiv : 0 <= n / 10 < 2 ^ Z.of_nat (S f)).
      { split; [apply Z.div_pos; lia|].
        apply Z.div_lt_upper_bound; [lia|].
        replace (Z.of_nat (S (S f))) with (Z.succ (Z.of_nat (S f))) in Hn by lia.
        rewrite Z.pow_succ_r in Hn by lia. lia. }
      destruct (IH (n / 10) (String (ascii_of_N (48 + Z.to_N (n mod 10))) acc) nd Hdiv)
        as (k & Hk & Hlen & Hall & Hscan).
      exists (S k). split; [lia|].
      rewrite Hlen, Hall, Hscan.
      cbn [String.length Py.all_digits Py.scan_digits]. rewrite Hv, Hd.
      split; [lia|]. split; [reflexivity|].
      replace (10 * (n / 10) + n mod 10) with n
        by (pose proof (Z.div_mod n 10 ltac:(lia)); lia).
      f_equal. lia.
Qed.

Lemma digits_scan (n : Z) :
  0 <= n ->
  exists k : nat,
    (1 <= k <= S (Z.to_nat (Z.log2 n)))%nat /\
    String.length (Py.digits n) = k /\
    Py.all_digits (Py.digits n) = true /\
    Py.scan_digits (Py.digits n) false 0 0 = Some (n, k, "").
Proof.
  intros Hn. unfold Py.digits.
  assert (Hb : 0 <= n < 2 ^ Z.of_nat (S (Z.to_nat (Z.log2 n)))).
  { split; [assumption|].
    rewrite Nat2Z.inj_succ, Z2Nat.id by apply Z.log2_nonneg.
    destruct (Z.eq_dec n 0) as [->|Hpos]; [reflexivity|].
    apply Z.log2_spec. lia. }
  destruct (scan_digits_of (Z.to_nat (Z.log2 n)) n "" 0%nat Hb)
    as (k & Hk & Hlen & Hall & Hscan).
  exists k. cbn [String.length] in Hlen. rewrite Nat.add_0_r in Hlen.
  cbn [Py.all_digits] in Hall. cbn [Py.scan_digits Nat.add] in Hscan.
  repeat split; try assumption; lia.
Qed.

(** What [str] prints, [int] reads back. *)
Lemma int_of_str (n : Z) (s : string) : Py.str n = Some s -> Py.int s = Some n.
Proof.
  unfold Py.str.
  destruct (digits_scan (Z.abs n) (Z.abs_nonneg n)) as (k & Hk & Hlen & Hall & Hscan).
  destruct (Py.int_max_str_digits <? String.length (Py.digits (Z.abs n)))%nat eqn:Hlim;
    [discriminate|].
  intros H. injection H as <-.
  destruct (Py.digits (Z.abs n)) as [|c ds] eqn:Ed; [cbn in Hlen; lia|].
  pose proof Hall as Hc. cbn [Py.all_digits] in Hc. apply andb_true_iff in Hc as [Hc _].
  destruct (digit_is_plain c Hc) as (Hsp & Hplus & Hminus & Hus & _).
  rewrite Hlen in Hlim.
  destruct k as [|k']; [lia|].
  destruct (n <? 0) eqn:Eneg.
  - apply Z.ltb_lt in Eneg. unfold Py.int.
    change (Py.skip_int_space (String "-" (String c ds))) with (String "-" (String c ds)).
    cbn [Ascii.eqb Bool.eqb]. cbv beta iota zeta. cbn [Py.starts_with_underscore].
    rewrite Hus, Hscan, Hlim. cbn [Py.skip_int_space]. f_equal. lia.
  - apply Z.ltb_ge in Eneg. unfold Py.int.
    cbn [Py.skip_int_space]. rewrite Hsp, Hplus, Hminus.
    cbv beta iota zeta. cbn [Py.starts_with_underscore].
    rewrite Hus, Hscan, Hlim. cbn [Py.skip_int_space]. f_equal. lia.
Qed.

(** [str] prints digits behind an optional sign: no comma. *)
Lemma str_no_comma (n : Z) (s : string) :
  Py.str n = Some s -> Py.contains "," s = false.
Proof.
  unfold Py.str.
  destruct (digits_scan (Z.abs n) (Z.abs_nonneg n)) as (k & _ & _ & Hall & _).
  destruct (Py.int_max_str_digits <? String.length (Py.digits (Z.abs n)))%nat;
    [discriminate|].
  intros H. injection H as <-.
  assert (Hd : forall t, Py.all_digits t = true -> Py.contains "," t = false).
  { induction t as [|c t IH]; cbn [Py.all_digits Py.contains]; intros Ht; [reflexivity|].
    apply andb_true_iff in Ht as [Hc Ht]. rewrite (IH Ht), orb_false_r.
    destruct c as [b0 b1 b2 b3 b4 b5 b6 b7].
    destruct b0, b1, b2, b3, b4, b5, b6, b7; try reflexivity; discriminate Hc. }
  destruct (n <? 0); [cbn [Py.contains]|]; now rewrite (Hd _ Hall).
Qed.

(** [str] prints every integer below [2 ^ 4300] in absolute value. *)
Lemma str_defined (n : Z) :
  Z.abs n < 2 ^ 4300 -> exists s, Py.str n = Some s.
Proof.
  intros Hn. unfold Py.str.
  destruct (digits_scan (Z.abs n) (Z.abs_nonneg n)) as (k & Hk & Hlen & _).
  assert (Hlog : Z.log2 (Z.abs n) < 4300).
  { destruct (Z.eq_dec (Z.abs n) 0) as [->|Hpos]; [reflexivity|].
    apply Z.log2_lt_pow2; lia. }
  assert (Hle : (String.length (Py.digits (Z.abs n)) <= Py.int_max_str_digits)%nat).
  { rewrite Hlen. transitivity (S (Z.to_nat (Z.log2 (Z.abs n)))); [lia|].
    unfold Py.int_max_str_digits.
    pose proof (Z.log2_nonneg (Z.abs n)).
    apply Nat2Z.inj_le. rewrite Nat2Z.inj_succ, Z2Nat.id by assumption.
    change (Z.of_nat 4300) with 4300. lia. }
  rewrite (proj2 (Nat.ltb_ge _ _) Hle). eauto.
Qed.

Example str_samples :
  map Py.str [0; 7; 10; 123; -5; 1000] =
  [Some "0"; Some "7"; Some "10"; Some "123"; Some "-5"; Some "1000"].
Proof. reflexivity. Qed.

(** ** Lines built from cells *)

Lemma lstrip_length (s : string) : (String.length (Py.lstrip s) <= String.length s)%nat.
Proof.
  induction s as [|c s IH]; cbn [Py.lstrip String.length]; [lia|].
  destruct (Py.isspace c); cbn [String.length]; lia.
Qed.

Lemma lstrip_fixed_head (c : ascii) (s : string) :
  Py.lstrip (String c s) = String c s -> Py.isspace c = false.
Proof.
  cbn [Py.lstrip]. destruct (Py.isspace c); [|reflexivity].
  intros H. pose proof (lstrip_length s) as Hl. rewrite H in Hl.
  cbn [String.length] in Hl. lia.
Qed.

Lemma string_app_assoc (a b c : string) : (a ++ b) ++ c = a ++ (b ++ c).
Proof. induction a as [|x a IH]; cbn [append]; [reflexivity | now rewrite IH]. Qed.

Lemma string_app_nil_r (a : string) : a ++ "" = a.
Proof. induction a as [|x a IH]; cbn [append]; [reflexivity | now rewrite IH]. Qed.

Lemma join_cons (x : string) (l : list string) :
  l <> [] -> Py.join "," (x :: l) = x ++ String "," (Py.join "," l).
Proof. destruct l; [contradiction | reflexivity]. Qed.

Lemma join_snoc (l : list string) (x : string) :
  l <> [] -> Py.join "," (l ++ [x]) = Py.join "," l ++ String "," x.
Proof.
  induction l as [|y l IH]; intros Hne; [contradiction|].
  destruct l as [|z l].
  - reflexivity.
  - change ((y :: z :: l) ++ [x])%list with (y :: ((z :: l) ++ [x]))%list.
    rewrite join_cons by (destruct l; discriminate).
    rewrite IH by discriminate.
    rewrite (join_cons y (z :: l)) by discriminate.
    rewrite string_app_assoc. reflexivity.
Qed.

(** A row of cells joined with commas, with blanks after it: when the first
    cell does not begin with a blank, the last does not end with one and no
    cell holds a comma, the tokens of the line are the cells. *)
Lemma tokens_of_joined_row (first : string) (mid : list string) (last w : string) :
  Py.lstrip first = first ->
  Py.rstrip last = last ->
  Py.strip w = "" ->
  comma_free (first :: mid ++ [last]) = true ->
  tokens (Py.join "," (first :: mid ++ [last]) ++ w) = (first :: mid ++ [last])%list.
Proof.
  intros Hfirst Hlast Hw Hfree.
  apply strip_blank_iff in Hw.
  assert (Hne : (mid ++ [last])%list <> []) by (destruct mid; discriminate).
  unfold tokens.
  assert (Hstrip : Py.strip (Py.join "," (first :: mid ++ [last]) ++ w)
                   = Py.join "," (first :: mid ++ [last])).
  { unfold Py.strip.
    assert (Hl : Py.lstrip (Py.join "," (first :: mid ++ [last]) ++ w)
                 = Py.join "," (first :: mid ++ [last]) ++ w).
    { rewrite join_cons by assumption.
      destruct first as [|c f'].
      - reflexivity.
      - pose proof (lstrip_fixed_head c f' Hfirst) as Hc.
        cbn [append Py.lstrip]. now rewrite Hc. }
    rewrite Hl, (rstrip_blank_suffix _ w Hw).
    change (first :: mid ++ [last])%list with ((first :: mid) ++ [last])%list.
    rewrite join_snoc by discriminate.
    rewrite rstrip_app_nonspace by reflexivity. now rewrite Hlast. }
  rewrite Hstrip. apply split_join; [discriminate | assumption].
Qed.

Lemma row_ends (row : list string) :
  (2 <= length row)%nat ->
  exists first mid last, row = (first :: mid ++ [last])%list /\
                         hd "" row = first /\ List.last row "" = last.
Proof.
  intros Hlen. destruct row as [|first rest]; [cbn in Hlen; lia|].
  assert (Hrest : rest <> []) by (destruct rest; [cbn in Hlen; lia | discriminate]).
  destruct (exists_last Hrest) as (mid & last & ->).
  exists first, mid, last. split; [reflexivity|]. split; [reflexivity|].
  change (first :: mid ++ [last])%list with ((first :: mid) ++ [last])%list.
  apply last_last.
Qed.

Section ReplayedRow.

Context {Clock : Type}.

(** A row of [N] cells replayed from a file is taken back by the model cell
    for cell, when no cell holds a comma and the row neither begins nor ends
    with a blank: the line the replayer emits has the cells as its tokens and
    passes the column check. *)
Theorem replayed_row_is_taken_back (row : list string)
        (m : Gui.TelemetryModel Clock) (now : Clock) :
  length row = N ->
  comma_free row = true ->
  Py.lstrip (hd "" row) = hd "" row ->
  Py.rstrip (List.last row "") = List.last row "" ->
  tokens (Py.join "," row) = row /\
  forall have want,
    snd (Gui.append_csv_line m now (Py.join "," row)) <> Gui.ErrorSignal have want.
Proof.
  intros Hlen Hfree Hfirst Hlast.
  assert (Htok : tokens (Py.join "," row) = row).
  { destruct (row_ends row) as (first & mid & last & -> & Hf & Hl).
    - rewrite Hlen. change N with 25%nat. lia.
    - rewrite Hf in Hfirst. rewrite Hl in Hlast.
      pose proof (tokens_of_joined_row first mid last "" Hfirst Hlast eq_refl Hfree) as H.
      now rewrite string_app_nil_r in H. }
  split; [assumption|].
  intros have want. rewrite append_csv_line_cases, Htok, Hlen, Nat.eqb_refl.
  cbn [negb]. cbv zeta.
  destruct (Py.isdigit (field row 2));
    [destruct (Py.int (field row 2))|]; discriminate.
Qed.

End ReplayedRow.

Lemma replayed_row_is_taken_back_witness :
  tokens (Py.join "," sample_row) = sample_row.
Proof.
  exact (proj1 (@replayed_row_is_taken_back Z sample_row (Gui.init 3) 1
                  eq_refl eq_refl eq_refl eq_refl)).
Defined.

(** A cell that holds a comma, which a CSV file can carry between quotes,
    makes the replayed line one field too long: the model refuses it. *)
Example replayed_comma_cell_is_refused :
  let row := map (fun c => if String.eqb c "CXON" then "CX,ON" else c) sample_row in
  length row = N /\
  Gui.append_csv_line (Gui.init 3) 1 (Py.join "," row)
  = (Gui.init 3, Gui.ErrorSignal 26 25).
Proof. split; reflexivity. Qed.

(** ** [build_line] against [parse_and_validate] *)

Lemma valid_mode_cases (mode : string) :
  Schema.is_valid_mode mode = true -> mode = "F" \/ mode = "S".
Proof.
  unfold Schema.is_valid_mode, Py.mem, Schema.ALLOWED_MODES. cbn [existsb].
  intros H. repeat (apply orb_true_iff in H as [H|H]);
    try (apply String.eqb_eq in H; auto). discriminate.
Qed.

Lemma valid_state_cases (state : string) :
  Schema.is_valid_state state = true ->
  In state Schema.ALLOWED_STATES.
Proof.
  unfold Schema.is_valid_state, Py.mem. intros H.
  apply existsb_exists in H as (x & Hin & Hx).
  apply String.eqb_eq in Hx. now subst.
Qed.

Lemma allowed_text_is_plain (x : string) :
  In x (Schema.ALLOWED_MODES ++ Schema.ALLOWED_STATES) ->
  Py.contains "," x = false /\ Py.strip x = x.
Proof.
  intros H. cbn in H.
  repeat (destruct H as [<-|H]; [split; reflexivity|]). contradiction.
Qed.

Lemma flight_state_allowed (count : Z) :
  Schema.is_valid_state (FakeSender.flight_state count) = true.
Proof.
  unfold FakeSender.flight_state.
  destruct (count <? 10); [reflexivity|].
  destruct (count <? 30); [reflexivity|].
  destruct (count <? 35); [reflexivity|].
  destruct (count <? 80); reflexivity.
Qed.

Section FakeSenderLines.

Variable Float : Type.
Variable fixed : nat -> Float -> string.

(** Fixed-point formatting writes a sign, digits and a point (or [nan],
    [inf]): never a comma. *)
Hypothesis fixed_no_comma : forall k x, Py.contains "," (fixed k x) = false.

Lemma build_line_accepted
      (packet_count : Z) (mode state : string)
      (alt_m temp_c press_kpa vbatt_v : Float)
      (gyro accel mag : Float * Float * Float)
      (auto_rate_dps : Z) (gps_time : string)
      (gps_alt_m lat lon : Float) (gps_sats : Z)
      (cmd_echo mission_time line : string) :
  Schema.is_valid_mode mode = true ->
  Schema.is_valid_state state = true ->
  Py.contains "," mission_time = false ->
  Py.contains "," gps_time = false ->
  Py.contains "," cmd_echo = false ->
  Py.rstrip cmd_echo = cmd_echo ->
  FakeSender.build_line Float fixed packet_count mode state alt_m temp_c press_kpa
    vbatt_v gyro accel mag auto_rate_dps gps_time gps_alt_m lat lon gps_sats
    cmd_echo mission_time = Some line ->
  exists row : list string,
    Receiver.parse_and_validate line = Ok (row, packet_count) /\
    line = Py.join "," row ++ String (ascii_of_N 10) "" /\
    field row 1 = mission_time /\ field row 3 = mode /\ field row 4 = state /\
    field row 19 = gps_time /\ field row 24 = cmd_echo.
Proof.
  intros Hmode Hstate Hmt Hgt Hecho Hrs.
  unfold FakeSender.build_line.
  destruct gyro as [[g1 g2] g3], accel as [[a1 a2] a3], mag as [[m1 m2] m3].
  destruct (Py.str packet_count) as [pc|] eqn:Epc; [|discriminate].
  destruct (Py.str auto_rate_dps) as [ar|] eqn:Ear; [|discriminate].
  destruct (Py.str gps_sats) as [gs|] eqn:Egs; [|discriminate].
  set (fields :=
         [ Config.TEAM_ID; mission_time; pc; mode; state;
           fixed 1 alt_m; fixed 1 temp_c; fixed 1 press_kpa; fixed 1 vbatt_v;
           fixed 2 g1; fixed 2 g2; fixed 2 g3;
           fixed 2 a1; fixed 2 a2; fixed 2 a3;
           fixed 2 m1; fixed 2 m2; fixed 2 m3;
           ar; gps_time; fixed 1 gps_alt_m; fixed 4 lat; fixed 4 lon; gs; cmd_echo ]).
  intros H.
  assert (Hline : line = Py.join "," fields ++ String (ascii_of_N 10) "")
    by (injection H as H'; rewrite <- H'; reflexivity).
  clear H. rewrite Hline. clear Hline line.
  destruct (allowed_text_is_plain mode) as [Hmc Hms].
  { apply in_or_app. left. destruct (valid_mode_cases mode Hmode) as [->| ->];
      cbn; auto. }
  destruct (allowed_text_is_plain state) as [Hsc Hss].
  { apply in_or_app. right. now apply valid_state_cases. }
  pose proof (str_no_comma _ _ Epc) as Hpc.
  pose proof (str_no_comma _ _ Ear) as Har.
  pose proof (str_no_comma _ _ Egs) as Hgs.
  assert (Htok : tokens (Py.join "," fields ++ String (ascii_of_N 10) "") = fields).
  { apply (tokens_of_joined_row Config.TEAM_ID
             [mission_time; pc; mode; state;
              fixed 1 alt_m; fixed 1 temp_c; fixed 1 press_kpa; fixed 1 vbatt_v;
              fixed 2 g1; fixed 2 g2; fixed 2 g3;
              fixed 2 a1; fixed 2 a2; fixed 2 a3;
              fixed 2 m1; fixed 2 m2; fixed 2 m3;
              ar; gps_time; fixed 1 gps_alt_m; fixed 4 lat; fixed 4 lon; gs]
             cmd_echo (String (ascii_of_N 10) "")).
    - reflexivity.
    - exact Hrs.
    - reflexivity.
    - unfold comma_free. cbn [forallb app].
      rewrite !fixed_no_comma, Hmt, Hpc, Hmc, Hsc, Har, Hgt, Hgs, Hecho.
      reflexivity. }
  exists fields. split.
  - rewrite parse_after_checks; rewrite ?Htok.
    + change (field fields 2) with pc. rewrite (int_of_str _ _ Epc). reflexivity.
    + apply Nat.leb_le. reflexivity.
    + reflexivity.
    + change (field fields 3) with mode. now rewrite Hms.
    + change (field fields 4) with state. now rewrite Hss.
  - repeat split; reflexivity.
Qed.

(** A line the simulator builds is accepted by the validator, with the packet
    count it was built from and the fields as given: for an allowed mode and
    state, times and echo without comma, and an echo that does not end with a
    blank. *)
Theorem build_line_round_trip
        (packet_count : Z) (mode state : string)
        (alt_m temp_c press_kpa vbatt_v : Float)
        (gyro accel mag : Float * Float * Float)
        (auto_rate_dps : Z) (gps_time : string)
        (gps_alt_m lat lon : Float) (gps_sats : Z)
        (cmd_echo mission_time line : string) :
  Schema.is_valid_mode mode = true ->
  Schema.is_valid_state state = true ->
  Py.contains "," mission_time = false ->
  Py.contains "," gps_time = false ->
  Py.contains "," cmd_echo = false ->
  Py.rstrip cmd_echo = cmd_echo ->
  FakeSender.build_line Float fixed packet_count mode state alt_m temp_c press_kpa
    vbatt_v gyro accel mag auto_rate_dps gps_time gps_alt_m lat lon gps_sats
    cmd_echo mission_time = Some line ->
  exists row : list string,
    Receiver.parse_and_validate line = Ok (row, packet_count) /\
    line = Py.join "," row ++ String (ascii_of_N 10) "" /\
    field row 1 = mission_time /\ field row 3 = mode /\ field row 4 = state /\
    field row 19 = gps_time /\ field row 24 = cmd_echo.
Proof. apply build_line_accepted. Qed.

(** Every packet of the simulator's loop is accepted: built with mode S, the
    state scheduled for its count, the echo CXON and the mission time as GPS
    time, the line exists for every count from 0 up to [2 ^ 4300] and the
    validator reads that count back, with the scheduled state. *)
Theorem fake_sender_packets_are_accepted
        (count : Z) (alt temp press vbatt gps_alt lat lon : Float)
        (gyro accel mag : Float * Float * Float) (mission_time : string) :
  0 <= count < 2 ^ 4300 ->
  Py.contains "," mission_time = false ->
  exists (line : string) (row : list string),
    FakeSender.build_line Float fixed count "S" (FakeSender.flight_state count)
      alt temp press vbatt gyro accel mag 15 mission_time gps_alt lat lon 6
      "CXON" mission_time = Some line /\
    Receiver.parse_and_validate line = Ok (row, count) /\
    field row 4 = FakeSender.flight_state count.
Proof.
  intros Hcount Hmt.
  destruct (str_defined count ltac:(lia)) as (pc & Epc).
  assert (Hline : exists line,
             FakeSender.build_line Float fixed count "S" (FakeSender.flight_state count)
               alt temp press vbatt gyro accel mag 15 mission_time gps_alt lat lon 6
               "CXON" mission_time = Some line).
  { unfold FakeSender.build_line.
    destruct gyro as [[g1 g2] g3], accel as [[a1 a2] a3], mag as [[m1 m2] m3].
    rewrite Epc. change (Py.str 15) with (Some "15"). change (Py.str 6) with (Some "6").
    eauto. }
  destruct Hline as (line & Hline). exists line.
  destruct (build_line_accepted count "S" (FakeSender.flight_state count)
              alt temp press vbatt gyro accel mag 15 mission_time gps_alt lat lon 6
              "CXON" mission_time line eq_refl (flight_state_allowed count)
              Hmt Hmt eq_refl eq_refl Hline)
    as (row & Hparse & _ & _ & _ & Hst & _).
  exists row. repeat split; assumption.
Qed.

End FakeSenderLines.

Lemma build_line_round_trip_witness :
  exists row : list string,
    Receiver.parse_and_validate
      ("1000,00:00:07,7,S,LAUNCH_PAD,0.0,0.0,0.0,0.0,0.0,0.0,0.0,0.0,0.0,0.0,0.0,0.0,0.0,15,00:00:06,0.0,0.0,0.0,6,CXON"
       ++ String (ascii_of_N 10) "")
    = Ok (row, 7) /\
    field row 4 = "LAUNCH_PAD".
Proof.
  destruct (build_line_round_trip unit (fun _ _ => "0.0") (fun _ _ => eq_refl)
              7 "S" "LAUNCH_PAD" tt tt tt tt (tt, tt, tt) (tt, tt, tt) (tt, tt, tt)
              15 "00:00:06" tt tt tt 6 "CXON" "00:00:07" _
              eq_refl eq_refl eq_refl eq_refl eq_refl eq_refl eq_refl)
    as (row & Hparse & _ & _ & _ & Hst & _).
  exists row. split; assumption.
Defined.

Lemma fake_sender_packets_are_accepted_witness :
  exists (line : string) (row : list string),
    FakeSender.build_line unit (fun _ _ => "0.0") 42 "S" (FakeSender.flight_state 42)
      tt tt tt tt (tt, tt, tt) (tt, tt, tt) (tt, tt, tt) 15 "00:00:42" tt tt tt 6
      "CXON" "00:00:42" = Some line /\
    Receiver.parse_and_validate line = Ok (row, 42) /\
    field row 4 = "DESCENT".
Proof.
  refine (fake_sender_packets_are_accepted unit (fun _ _ => "0.0") (fun _ _ => eq_refl)
            42 tt tt tt tt tt tt tt (tt, tt, tt) (tt, tt, tt) (tt, tt, tt)
            "00:00:42" _ eq_refl).
  split; [discriminate | reflexivity].
Defined.
